(** * web3_auth: the Sign-In With Ethereum core of [App.tsx]

    A shallow embedding of the [WalletProvider] component of
    [src/src/App.tsx] (the second page variant of the repository carries
    the same provider code, statement for statement): the challenge
    builder [generateSiweMessage], the two connect variants, [connect],
    [signMessage], [disconnect] and the [accountsChanged] handler.

    React state is modelled by explicit state passing: a [Store] holds the
    two [useState] cells of the component ([state] and [provider]); each
    operation is a computation in a small state-and-exception monad that
    also records every value committed by [setState].  What the page and
    the wallet decide (the injected provider, the answers to awaited
    calls, the random number, the clock) is an explicit input.

    On top of the provider come the display helpers [shortenAddress] and
    [getNetworkName] and the handlers of the two pages that use the
    provider: [handleConnect], [handleSignIn] and [handleDisconnect] of
    [App.tsx], and [handleConnect], [handleAutoSign] and the auto-sign
    effect of the page with [LandingPage] and [Dashboard]. *)

From Stdlib Require Import Bool Arith ZArith List Ascii String Lia.
From Stdlib Require Import DecimalString DecimalZ.
Import ListNotations.

Local Open Scope string_scope.

(** ** The fragment of JavaScript the component relies on *)

Module JS.

(** The line feed written by a line break inside a template literal. *)
Definition LF : ascii := Ascii.ascii_of_nat 10.
Definition nl : string := String LF EmptyString.

(** [!v] for [v : string | null]: [null], [undefined] and the empty
    string are falsy. *)
Definition truthy_string (v : option string) : bool :=
  match v with
  | None => false
  | Some EmptyString => false
  | Some (String _ _) => true
  end.

(** [!v] for [v : number | null], on integers: [null] and [0] are falsy. *)
Definition truthy_number (v : option Z) : bool :=
  match v with
  | None => false
  | Some n => negb (n =? 0)%Z
  end.

(** [a || b] where [a : string | undefined] and [b] is a string. *)
Definition or_else (a : option string) (b : string) : string :=
  if truthy_string a then
    match a with Some s => s | None => b end
  else b.

(** [arr[i]]: [undefined] (here [None]) out of range. *)
Definition index {A : Type} (arr : list A) (i : nat) : option A :=
  nth_error arr i.

(** [s.substring(a, b)]: both indices are clamped to the length and
    swapped when out of order. *)
Definition substring (s : string) (a b : nat) : string :=
  let a' := Nat.min a (String.length s) in
  let b' := Nat.min b (String.length s) in
  String.substring (Nat.min a' b') (Nat.max a' b' - Nat.min a' b') s.

(** An integer is held by a [number] as it is up to [2^53 - 1] in absolute
    value, [Number.MAX_SAFE_INTEGER]. *)
Definition max_safe_integer : Z := (2 ^ 53 - 1)%Z.

Definition safe_integer (n : Z) : Prop :=
  (- max_safe_integer <= n <= max_safe_integer)%Z.

(** [Number(b)] for a bigint [b]: [b] itself when it fits in 53 bits,
    else the nearest integer with a 53-bit mantissa, ties going to the
    even mantissa.  From [2^1024 - 2^970] on the result is [Infinity],
    which the integers used here for numbers do not have: see
    [double_range]. *)
Definition to_number (b : Z) : Z :=
  let a := Z.abs b in
  if (a <? 2 ^ 53)%Z then b
  else
    let e := (Z.log2 a - 52)%Z in
    let q := (a / 2 ^ e)%Z in
    let r := (a mod 2 ^ e)%Z in
    let half := (2 ^ (e - 1))%Z in
    let q' := if (r <? half)%Z then q
              else if (half <? r)%Z then (q + 1)%Z
              else if Z.even q then q else (q + 1)%Z in
    (Z.sgn b * (q' * 2 ^ e))%Z.

(** The bigints that [Number] turns into a finite number. *)
Definition double_range (b : Z) : Prop :=
  (Z.abs b < 2 ^ 1024 - 2 ^ 970)%Z.

(** [`${n}`] for an integer [n]: its decimal digits, with a leading
    minus sign when negative.  This is what the engine writes for a safe
    integer; beyond, it writes the shortest digits that read back as the
    number, and an exponent from [1e21] on, which is not followed here:
    what is stated of the text of a number is stated of safe integers. *)
Definition number_to_string (n : Z) : string :=
  NilZero.string_of_int (Z.to_int n).

(** Reading a decimal numeral back. *)
Definition parse_number (s : string) : option Z :=
  option_map Z.of_int (NilZero.int_of_string s).

(** [s.split("\n")]. *)
Fixpoint lines (s : string) : list string :=
  match s with
  | EmptyString => [EmptyString]
  | String c rest =>
      if Ascii.eqb c LF then EmptyString :: lines rest
      else match lines rest with
           | [] => [String c EmptyString]
           | l :: ls => String c l :: ls
           end
  end.

(** A string without line feed. *)
Fixpoint single_line (s : string) : bool :=
  match s with
  | EmptyString => true
  | String c rest => negb (Ascii.eqb c LF) && single_line rest
  end.

(** An index argument of [slice] brought into [0, len]: counted from the
    end when negative. *)
Definition slice_index (len : nat) (i : Z) : nat :=
  if (i <? 0)%Z then Z.to_nat (Z.max (Z.of_nat len + i) 0)
  else Nat.min (Z.to_nat i) len.

(** [s.slice(start, end)], [end] being optional. *)
Definition slice (s : string) (start : Z) (end_ : option Z) : string :=
  let len := String.length s in
  let from := slice_index len start in
  let to := match end_ with
            | None => len
            | Some e => slice_index len e
            end in
  String.substring from (to - from) s.

End JS.

(** ** Data model *)

(** [interface WalletState]. *)
Record WalletState : Type := mkWalletState {
  address : option string;
  chainId : option Z;
  isConnected : bool;
  isLoading : bool;
  error : option string
}.

(** ** Message Builder *)

(** What [generateSiweMessage] reads from its surroundings at call time:
    [window.location.host], [window.location.origin], the text of
    [Math.random().toString(36)] and of [new Date().toISOString()].  The
    base-36 rendering of a double is floating-point work of the engine and
    is taken as given. *)
Record Ambient : Type := mkAmbient {
  location_host : string;
  location_origin : string;
  random_base36 : string;
  date_iso : string
}.

Definition statement : string := "Sign in to verify your wallet ownership".

(** [Math.random().toString(36).substring(2, 15)]. *)
Definition nonce (amb : Ambient) : string :=
  JS.substring (random_base36 amb) 2 15.

(** The first line of the challenge. *)
Definition greeting (amb : Ambient) : string :=
  location_host amb ++ " wants you to sign in with your Ethereum account:".

(** The template literal of [generateSiweMessage], piece by piece. *)
Definition generateSiweMessage (amb : Ambient) (addr : string) (chain : Z)
  : string :=
  let domain := location_host amb in
  let origin := location_origin amb in
  let nonce := nonce amb in
  let issuedAt := date_iso amb in
  domain ++ " wants you to sign in with your Ethereum account:" ++ JS.nl
  ++ addr ++ JS.nl
  ++ JS.nl
  ++ statement ++ JS.nl
  ++ JS.nl
  ++ "URI: " ++ origin ++ JS.nl
  ++ "Version: 1" ++ JS.nl
  ++ "Chain ID: " ++ JS.number_to_string chain ++ JS.nl
  ++ "Nonce: " ++ nonce ++ JS.nl
  ++ "Issued At: " ++ issuedAt.

(** ** Provider Adapter: what the wallet side answers *)

(** A thrown value, as far as the component inspects it: [err.code] and
    [err.message]. *)
Inductive ErrorCode : Type :=
| NoCode
| NumCode (n : Z)
| StrCode (s : string).

Record JsError : Type := mkJsError {
  err_code : ErrorCode;
  err_message : option string
}.

(** [new Error(msg)]. *)
Definition new_Error (msg : string) : JsError := mkJsError NoCode (Some msg).

(** [err.code === 4001]. *)
Definition code_is_4001 (e : JsError) : bool :=
  match err_code e with
  | NumCode n => (n =? 4001)%Z
  | _ => false
  end.

(** How an awaited call (or any computation) ends. *)
Inductive Completion (A : Type) : Type :=
| Normal (a : A)
| Thrown (e : JsError).
Arguments Normal {A} & a.
Arguments Thrown {A} e.

(** The injected [window.ethereum] object and the [ethers.BrowserProvider]
    built around it. *)
Inductive Ethereum : Type := Injected (id : nat).
Inductive BrowserProvider : Type := newBrowserProvider (eth : Ethereum).

(** What [provider.getNetwork()] resolves to; [network.chainId] is a
    bigint. *)
Record Network : Type := mkNetwork { net_chainId : Z }.

(** The object returned by [provider.getSigner()]. *)
Record Signer : Type := mkSigner {
  signer_signMessage : string -> Completion string
}.

Inductive WalletType : Type := metamask | walletconnect.

(** What [provider.send("eth_requestAccounts", [])] resolves to.  The
    answer of the wallet is passed on as it is: an array of account texts
    or, off protocol, [null] or [undefined]; [complaint] is then the
    message of the [TypeError] the engine throws when [accounts[0]] is
    read.  A list written where an answer is expected stands for the
    array. *)
Inductive RpcAnswer : Type :=
| RpcNull (complaint : string)
| RpcArray (items : list string).

#[warning="-uniform-inheritance"]
Coercion RpcArray : list >-> RpcAnswer.

(** The surroundings of one [connect] call: whether [window.ethereum]
    exists, and how [provider.send("eth_requestAccounts", [])] and
    [provider.getNetwork()] settle. *)
Record ConnectEnv : Type := mkConnectEnv {
  window_ethereum : option Ethereum;
  send_eth_requestAccounts : Completion RpcAnswer;
  getNetwork : Completion Network
}.

(** The surroundings of one [signMessage] call. *)
Record SignEnv : Type := mkSignEnv {
  sign_ambient : Ambient;
  getSigner : BrowserProvider -> Completion Signer
}.

(** ** Connection State Machine *)

(** The two [useState] cells of [WalletProvider]. *)
Record Store : Type := mkStore {
  state : WalletState;
  provider : option BrowserProvider
}.

Definition initialState : WalletState :=
  mkWalletState None None false false None.

Definition initialStore : Store := mkStore initialState None.

(** The argument of [setState]: a new value, or a function of the
    previous one. *)
Inductive SetStateAction : Type :=
| Value (s : WalletState)
| Updater (f : WalletState -> WalletState).

Definition apply_action (a : SetStateAction) (prev : WalletState)
  : WalletState :=
  match a with
  | Value s => s
  | Updater f => f prev
  end.

(** Computations over the store that may throw, and that log each value
    [setState] commits, oldest first. *)
Definition Eff (A : Type) : Type :=
  Store -> Completion A * Store * list WalletState.

Definition ret {A} (a : A) : Eff A := fun st => (Normal a, st, []).

Definition throw {A} (e : JsError) : Eff A := fun st => (Thrown e, st, []).

Definition bind {A B} (m : Eff A) (k : A -> Eff B) : Eff B :=
  fun st =>
    match m st with
    | (Normal a, st1, log1) =>
        match k a st1 with
        | (r, st2, log2) => (r, st2, (log1 ++ log2)%list)
        end
    | (Thrown e, st1, log1) => (Thrown e, st1, log1)
    end.

(** [try { body } catch (err) { handler }]. *)
Definition try_catch {A} (body : Eff A) (handler : JsError -> Eff A)
  : Eff A :=
  fun st =>
    match body st with
    | (Normal a, st1, log1) => (Normal a, st1, log1)
    | (Thrown e, st1, log1) =>
        match handler e st1 with
        | (r, st2, log2) => (r, st2, (log1 ++ log2)%list)
        end
    end.

(** [await p] for a promise that settles as [c]. *)
Definition await {A} (c : Completion A) : Eff A :=
  match c with
  | Normal a => ret a
  | Thrown e => throw e
  end.

Definition setState (a : SetStateAction) : Eff unit :=
  fun st =>
    let s' := apply_action a (state st) in
    (Normal tt, mkStore s' (provider st), [s']).

Definition setProvider (p : option BrowserProvider) : Eff unit :=
  fun st => (Normal tt, mkStore (state st) p, []).

(** The [state] and [provider] a function body sees; the functions are
    taken from the current render. *)
Definition render : Eff Store := fun st => (Normal st, st, []).

Declare Scope eff_scope.
Delimit Scope eff_scope with eff.
Notation "x <- m ;; k" := (bind m (fun x => k))
  (at level 61, m at next level, right associativity) : eff_scope.
Notation "m ;; k" := (bind m (fun _ => k))
  (at level 61, right associativity) : eff_scope.
Local Open Scope eff_scope.

(** What [connectMetaMask] and [connectWalletConnect] return:
    [{ address: accounts[0], chainId: Number(network.chainId) }]. *)
Record ConnectResult : Type := mkConnectResult {
  result_address : option string;
  result_chainId : Z
}.

(** [accounts[0]], read from the answer whatever it is. *)
Definition first_account (accounts : RpcAnswer) : Eff (option string) :=
  match accounts with
  | RpcNull complaint => throw (mkJsError NoCode (Some complaint))
  | RpcArray items => ret (JS.index items 0)
  end.

Definition connectMetaMask (env : ConnectEnv) : Eff ConnectResult :=
  match window_ethereum env with
  | None =>
      throw (new_Error
        "MetaMask is not installed. Please install MetaMask to continue.")
  | Some ethereum =>
      let provider := newBrowserProvider ethereum in
      accounts <- await (send_eth_requestAccounts env) ;;
      network <- await (getNetwork env) ;;
      setProvider (Some provider) ;;
      account <- first_account accounts ;;
      ret (mkConnectResult account (JS.to_number (net_chainId network)))
  end.

Definition connectWalletConnect (env : ConnectEnv) : Eff ConnectResult :=
  match window_ethereum env with
  | None =>
      throw (new_Error
        "WalletConnect requires a Web3 provider. Install MetaMask as fallback.")
  | Some ethereum =>
      let provider := newBrowserProvider ethereum in
      accounts <- await (send_eth_requestAccounts env) ;;
      network <- await (getNetwork env) ;;
      setProvider (Some provider) ;;
      account <- first_account accounts ;;
      ret (mkConnectResult account (JS.to_number (net_chainId network)))
  end.

(** [walletType === "metamask" ? connectMetaMask() : connectWalletConnect()]. *)
Definition connect_variant (walletType : WalletType) (env : ConnectEnv)
  : Eff ConnectResult :=
  match walletType with
  | metamask => connectMetaMask env
  | walletconnect => connectWalletConnect env
  end.

Definition connect (walletType : WalletType) (env : ConnectEnv) : Eff unit :=
  setState (Updater (fun prev =>
    mkWalletState (address prev) (chainId prev) (isConnected prev)
                  true None)) ;;
  try_catch
    (result <- connect_variant walletType env ;;
     setState (Value
       (mkWalletState (result_address result) (Some (result_chainId result))
                      true false None)))
    (fun err =>
       setState (Updater (fun prev =>
         mkWalletState (address prev) (chainId prev) (isConnected prev)
                       false
                       (Some (JS.or_else (err_message err)
                                         "Failed to connect wallet"))))).

(** The guard of [signMessage]:
    [!provider || !state.address || !state.chainId]. *)
Definition not_ready (st : Store) : bool :=
  match provider st with None => true | Some _ => false end
  || negb (JS.truthy_string (address (state st)))
  || negb (JS.truthy_number (chainId (state st))).

Definition signMessage (env : SignEnv) : Eff (option string) :=
  seen <- render ;;
  if not_ready seen then
    setState (Updater (fun prev =>
      mkWalletState (address prev) (chainId prev) (isConnected prev)
                    (isLoading prev) (Some "Wallet not connected"))) ;;
    ret None
  else
    match provider seen, address (state seen), chainId (state seen) with
    | Some provider, Some addr, Some chain =>
        setState (Updater (fun prev =>
          mkWalletState (address prev) (chainId prev) (isConnected prev)
                        true None)) ;;
        try_catch
          (signer <- await (getSigner env provider) ;;
           let message := generateSiweMessage (sign_ambient env) addr chain in
           signature <- await (signer_signMessage signer message) ;;
           setState (Updater (fun prev =>
             mkWalletState (address prev) (chainId prev) (isConnected prev)
                           false (error prev))) ;;
           ret (Some signature))
          (fun err =>
             let errorMsg :=
               if code_is_4001 err then "Signature rejected by user"
               else "Failed to sign message" in
             setState (Updater (fun prev =>
               mkWalletState (address prev) (chainId prev) (isConnected prev)
                             false (Some errorMsg))) ;;
             ret None)
    | _, _, _ => ret None (* excluded by the guard: see [ready_inv] *)
    end.

Definition disconnect : Eff unit :=
  setProvider None ;;
  setState (Value (mkWalletState None None false false None)).

(** The listener registered for ["accountsChanged"]. *)
Definition accountsChanged (accounts : list string) : Eff unit :=
  if Nat.eqb (List.length accounts) 0 then disconnect
  else
    setState (Updater (fun prev =>
      mkWalletState (JS.index accounts 0) (chainId prev) (isConnected prev)
                    (isLoading prev) (error prev))).

(** Reading the three components of a finished computation. *)
Definition outcome {A} (r : Completion A * Store * list WalletState)
  : Completion A := fst (fst r).
Definition final {A} (r : Completion A * Store * list WalletState)
  : Store := snd (fst r).
Definition committed {A} (r : Completion A * Store * list WalletState)
  : list WalletState := snd r.

(** ** Whole operations and reachable stores *)

(** What can happen to a mounted [WalletProvider]: a call of one of the
    three functions it exposes, or an ["accountsChanged"] notification. *)
Inductive Operation : Type :=
| Connect (walletType : WalletType) (env : ConnectEnv)
| SignMessage (env : SignEnv)
| Disconnect
| AccountsChanged (accounts : list string).

Definition run (op : Operation) (st : Store) : Store * list WalletState :=
  match op with
  | Connect w env => let r := connect w env st in (final r, committed r)
  | SignMessage env => let r := signMessage env st in (final r, committed r)
  | Disconnect => let r := disconnect st in (final r, committed r)
  | AccountsChanged accounts =>
      let r := accountsChanged accounts st in (final r, committed r)
  end.

(** Stores reachable from the mount through operations that satisfy [P]. *)
Inductive reachable (P : Operation -> Prop) : Store -> Prop :=
| reachable_mount : reachable P initialStore
| reachable_step st op :
    reachable P st -> P op -> reachable P (fst (run op st)).

(** The data-model invariant: a connected state names its account and its
    chain.  [None] stands for [null] and for [undefined]. *)
Definition connected_has_identity (s : WalletState) : Prop :=
  isConnected s = true -> address s <> None /\ chainId s <> None.

(** An operation in which a granted account request names at least one
    account. *)
Definition reports_account (op : Operation) : Prop :=
  match op with
  | Connect _ env =>
      match send_eth_requestAccounts env with
      | Normal (RpcArray accounts) => accounts <> []
      | _ => True
      end
  | _ => True
  end.

(** The answer of the wallet to a signing request for [message]: that of
    [provider.getSigner()] if it fails, else that of
    [signer.signMessage(message)]. *)
Definition signing_answer (env : SignEnv) (p : BrowserProvider)
  (message : string) : Completion string :=
  match getSigner env p with
  | Normal signer => signer_signMessage signer message
  | Thrown e => Thrown e
  end.

(** The provider handle a failed [connect] leaves: the prior one, unless
    the failure came after [setProvider], that is, from reading
    [accounts[0]] of a [null] answer once the network query had been
    answered. *)
Definition handle_after_failure (env : ConnectEnv) (st : Store)
  : option BrowserProvider :=
  match window_ethereum env, send_eth_requestAccounts env, getNetwork env with
  | Some eth, Normal (RpcNull _), Normal _ => Some (newBrowserProvider eth)
  | _, _, _ => provider st
  end.

(** The store passes the guard of [signMessage] with provider handle [p],
    address [a] and chain [c]. *)
Definition ready_with (st : Store) (p : BrowserProvider) (a : string)
  (c : Z) : Prop :=
  provider st = Some p /\ address (state st) = Some a /\
  chainId (state st) = Some c /\ not_ready st = false.

(** The state [setState] commits when an asynchronous phase starts:
    [{ ...prev, isLoading: true, error: null }]. *)
Definition loading (prev : WalletState) : WalletState :=
  mkWalletState (address prev) (chainId prev) (isConnected prev) true None.

(** [m] keeps [I]: started where [I] holds, every state it commits and the
    state it leaves satisfy [I], and a returned value satisfies [Q]. *)
Definition keeps (I : WalletState -> Prop) {A} (m : Eff A) (Q : A -> Prop)
  : Prop :=
  forall st, I (state st) ->
    I (state (final (m st))) /\
    Forall I (committed (m st)) /\
    match outcome (m st) with
    | Normal a => Q a
    | Thrown _ => True
    end.

(** The lines of the template that carry a label. *)
Definition uri_line (amb : Ambient) : string := "URI: " ++ location_origin amb.
Definition chain_line (chain : Z) : string :=
  "Chain ID: " ++ JS.number_to_string chain.
Definition nonce_line (amb : Ambient) : string := "Nonce: " ++ nonce amb.
Definition issued_line (amb : Ambient) : string :=
  "Issued At: " ++ date_iso amb.

(** The digits [Number.prototype.toString(36)] writes. *)
Definition is_base36_digit (ch : ascii) : bool :=
  let n := nat_of_ascii ch in
  (Nat.leb 48 n && Nat.leb n 57) || (Nat.leb 97 n && Nat.leb n 122).

Fixpoint all_chars (f : ascii -> bool) (s : string) : bool :=
  match s with
  | EmptyString => true
  | String ch rest => f ch && all_chars f rest
  end.

(** The shape of the base-36 rendering of a number in [0, 1): ["0"], or
    ["0."] followed by digits. *)
Definition base36_fraction (r : string) : bool :=
  match r with
  | String z EmptyString => Ascii.eqb z "0"
  | String z (String dot digits) =>
      Ascii.eqb z "0" && Ascii.eqb dot "." && all_chars is_base36_digit digits
  | _ => false
  end.

(** ** Sample inputs *)

Definition demo_ambient : Ambient :=
  mkAmbient "example.org" "https://example.org" "0.4fzyo82mvyr"
            "2024-01-01T00:00:00.000Z".

(** The page at a moment when [Math.random()] returned one half, whose
    base-36 rendering is ["0.i"] (18/36). *)
Definition half_ambient : Ambient :=
  mkAmbient "example.org" "https://example.org" "0.i"
            "2024-01-01T00:00:00.000Z".

(** An address text that spans two lines. *)
Definition two_line_address : string := "0xAB" ++ JS.nl ++ "CD".

Definition demo_wallet : Ethereum := Injected 0.

(** A wallet that grants the account request with two accounts on chain 1. *)
Definition granting_env : ConnectEnv :=
  mkConnectEnv (Some demo_wallet) (Normal ["0xABCD"; "0xEF01"])
               (Normal (mkNetwork 1)).

(** A wallet whose user declines the account request. *)
Definition declining_env : ConnectEnv :=
  mkConnectEnv (Some demo_wallet)
               (Thrown (mkJsError (NumCode 4001)
                                  (Some "User rejected the request.")))
               (Normal (mkNetwork 1)).

(** A wallet that grants the account request but lists no account. *)
Definition accountless_env : ConnectEnv :=
  mkConnectEnv (Some demo_wallet) (Normal []) (Normal (mkNetwork 1)).

(** A wallet that answers the account request with [null]. *)
Definition null_answer_env : ConnectEnv :=
  mkConnectEnv (Some demo_wallet)
               (Normal (RpcNull "Cannot read properties of null"))
               (Normal (mkNetwork 1)).

(** The store after a granted connect from the mount. *)
Definition connected_store : Store :=
  mkStore (mkWalletState (Some "0xABCD") (Some 1%Z) true false None)
          (Some (newBrowserProvider demo_wallet)).

Definition demo_signer : Signer :=
  mkSigner (fun message => Normal ("0xsigned:" ++ message)).

Definition signing_env : SignEnv :=
  mkSignEnv demo_ambient (fun _ => Normal demo_signer).

Definition refusing_signer : Signer :=
  mkSigner (fun _ => Thrown (mkJsError (NumCode 4001) (Some "denied"))).

Definition refusing_env : SignEnv :=
  mkSignEnv demo_ambient (fun _ => Normal refusing_signer).

(** ** Display helpers *)

(** [`${address.slice(0, 6)}...${address.slice(-4)}`]. *)
Definition shortenAddress (addr : string) : string :=
  JS.slice addr 0 (Some 6%Z) ++ "..." ++ JS.slice addr (-4) None.

(** The object literal [networks] of [getNetworkName]. *)
Definition networks : list (Z * string) :=
  [ (1%Z, "Ethereum Mainnet");
    (5%Z, "Goerli");
    (11155111%Z, "Sepolia");
    (137%Z, "Polygon");
    (80001%Z, "Mumbai") ].

(** [table[key]]: [undefined] (here [None]) for a key that is not there. *)
Fixpoint property (table : list (Z * string)) (key : Z) : option string :=
  match table with
  | [] => None
  | (k, v) :: rest => if (k =? key)%Z then Some v else property rest key
  end.

Definition getNetworkName (chain : Z) : string :=
  JS.or_else (property networks chain) ("Chain " ++ JS.number_to_string chain).

(** ** Auth Status Controller *)

Inductive AuthStatus : Type := idle | signing | authenticated.

(** [authStatus === "idle"]. *)
Definition is_idle (a : AuthStatus) : bool :=
  match a with
  | idle => true
  | _ => false
  end.

(** The state of a page: the cells of [WalletProvider], and the
    [showModal] and [authStatus] cells of the component that uses it. *)
Record Page : Type := mkPage {
  wallet : Store;
  showModal : bool;
  authStatus : AuthStatus
}.

Definition initialPage : Page := mkPage initialStore false idle.

(** Computations over a page that may throw. *)
Definition PageEff (A : Type) : Type := Page -> Completion A * Page.

Definition page_ret {A} (a : A) : PageEff A := fun pg => (Normal a, pg).

Definition page_bind {A B} (m : PageEff A) (k : A -> PageEff B)
  : PageEff B :=
  fun pg =>
    match m pg with
    | (Normal a, pg1) => k a pg1
    | (Thrown e, pg1) => (Thrown e, pg1)
    end.

(** A function of the wallet context called from the page. *)
Definition lift {A} (m : Eff A) : PageEff A :=
  fun pg =>
    match m (wallet pg) with
    | (r, st, _) => (r, mkPage st (showModal pg) (authStatus pg))
    end.

Definition setShowModal (b : bool) : PageEff unit :=
  fun pg => (Normal tt, mkPage (wallet pg) b (authStatus pg)).

Definition setAuthStatus (a : AuthStatus) : PageEff unit :=
  fun pg => (Normal tt, mkPage (wallet pg) (showModal pg) a).

(** The cells a handler sees: those of the current render. *)
Definition page_render : PageEff Page := fun pg => (Normal pg, pg).

Declare Scope page_scope.
Delimit Scope page_scope with page.
Notation "x <- m ;; k" := (page_bind m (fun x => k))
  (at level 61, m at next level, right associativity) : page_scope.
Notation "m ;; k" := (page_bind m (fun _ => k))
  (at level 61, right associativity) : page_scope.

Definition page_outcome {A} (r : Completion A * Page) : Completion A := fst r.
Definition page_final {A} (r : Completion A * Page) : Page := snd r.

(** [onClose] as both pages pass it to [WalletModal]:
    [() => setShowModal(false)]. *)
Definition onClose : PageEff unit := setShowModal false.

(** *** The page of [App.tsx] *)

(** [handleConnect] of [WalletModal]. *)
Definition handleConnect (type : WalletType) (env : ConnectEnv)
  : PageEff unit :=
  (lift (connect type env) ;;
   onClose)%page.

(** [handleSignIn] of [AuthPage]. *)
Definition handleSignIn (env : SignEnv) : PageEff unit :=
  (setAuthStatus signing ;;
   signature <- lift (signMessage env) ;;
   if JS.truthy_string signature then setAuthStatus authenticated
   else setAuthStatus idle)%page.

(** [handleDisconnect] of [AuthPage]. *)
Definition handleDisconnect : PageEff unit :=
  (lift disconnect ;;
   setAuthStatus idle)%page.

(** What [AuthPage] puts below its header: the button that opens the
    wallet modal, the button that signs, or the badge of an authenticated
    user. *)
Inductive AuthView : Type :=
| ConnectWalletButton
| SignButton
| AuthenticatedBadge.

Definition authView (pg : Page) : AuthView :=
  if isConnected (state (wallet pg))
     && JS.truthy_string (address (state (wallet pg)))
     && JS.truthy_number (chainId (state (wallet pg)))
  then match authStatus pg with
       | authenticated => AuthenticatedBadge
       | _ => SignButton
       end
  else ConnectWalletButton.

(** *** The page with [LandingPage] and [Dashboard] *)

Module Landing.

(** [handleConnect] of this page's [WalletModal]; [isLoading] is the one
    of the render the handler was created in. *)
Definition handleConnect (type : WalletType) (env : ConnectEnv)
  : PageEff unit :=
  (seen <- page_render ;;
   lift (connect type env) ;;
   if negb (isLoading (state (wallet seen))) then onClose
   else page_ret tt)%page.

(** [handleAutoSign] of [AppContent]. *)
Definition handleAutoSign (env : SignEnv) : PageEff unit :=
  (setAuthStatus signing ;;
   signature <- lift (signMessage env) ;;
   if JS.truthy_string signature then setAuthStatus authenticated
   else setAuthStatus idle)%page.

(** The body of the effect of [AppContent]. *)
Definition autoSignEffect (env : SignEnv) : PageEff unit :=
  (seen <- page_render ;;
   if isConnected (state (wallet seen)) && is_idle (authStatus seen)
   then handleAutoSign env
   else page_ret tt)%page.

(** An interaction followed by the effect, which runs when [isConnected]
    (its only dependency) differs from what it was before. *)
Definition with_effect (interaction : PageEff unit) (env : SignEnv)
  : PageEff unit :=
  (before <- page_render ;;
   interaction ;;
   after <- page_render ;;
   if Bool.eqb (isConnected (state (wallet before)))
               (isConnected (state (wallet after)))
   then page_ret tt
   else autoSignEffect env)%page.

(** What can happen to this page: a click on a wallet of the modal, a
    click on [Disconnect Wallet], an [accountsChanged] notification, the
    modal being opened or closed.  Each carries the surroundings of the
    sign request the effect may start. *)
Inductive Interaction : Type :=
| ClickWallet (type : WalletType) (env : ConnectEnv)
| ClickDisconnect
| NotifyAccounts (accounts : list string)
| ToggleModal (b : bool).

(** The handler each interaction runs: [handleConnect] of the modal,
    [disconnect] of the wallet context (the [onClick] of [Dashboard]), the
    [accountsChanged] listener, [setShowModal]. *)
Definition act (i : Interaction) : PageEff unit :=
  match i with
  | ClickWallet type cenv => handleConnect type cenv
  | ClickDisconnect => lift disconnect
  | NotifyAccounts accounts => lift (accountsChanged accounts)
  | ToggleModal b => setShowModal b
  end.

Definition interact (i : Interaction) (env : SignEnv) : PageEff unit :=
  with_effect (act i) env.

(** A series of interactions, each with its surroundings. *)
Fixpoint session (steps : list (Interaction * SignEnv)) (pg : Page) : Page :=
  match steps with
  | [] => pg
  | (i, env) :: rest => session rest (page_final (interact i env pg))
  end.

(** What [AppContent] returns. *)
Inductive Screen : Type := DashboardScreen | LandingScreen.

Definition screen (pg : Page) : Screen :=
  match authStatus pg with
  | authenticated => DashboardScreen
  | _ => LandingScreen
  end.

(** The address and the network [Dashboard] prints. *)
Definition dashboard_address (pg : Page) : string :=
  match address (state (wallet pg)) with
  | Some (String ch rest) => shortenAddress (String ch rest)
  | _ => EmptyString
  end.

Definition dashboard_network (pg : Page) : string :=
  match chainId (state (wallet pg)) with
  | Some chain => if (chain =? 0)%Z then EmptyString else getNetworkName chain
  | None => EmptyString
  end.

End Landing.

(** ** What every store between two operations looks like *)

(** No request is outstanding, a connected store holds a provider handle,
    and the connection flag and the chain id are set together. *)
Definition settled (st : Store) : Prop :=
  isLoading (state st) = false /\
  (isConnected (state st) = true -> provider st <> None) /\
  (isConnected (state st) = true <-> chainId (state st) <> None).

(** ** More sample inputs *)

(** The address of the display scenario. *)
Definition long_address : string :=
  "0xABCDEF1234567890000000000000000000000012AB".

(** A signer that answers with an empty signature. *)
Definition silent_signer : Signer := mkSigner (fun _ => Normal EmptyString).

Definition silent_env : SignEnv :=
  mkSignEnv demo_ambient (fun _ => Normal silent_signer).

(** A store that a granted connect on chain 0 leaves. *)
Definition chain_zero_store : Store :=
  mkStore (mkWalletState (Some "0xABCD") (Some 0%Z) true false None)
          (Some (newBrowserProvider demo_wallet)).

Definition connected_page : Page := mkPage connected_store false idle.

(** * Properties *)

(** ** The guard of [signMessage] *)

Lemma ready_inv st :
  not_ready st = false ->
  exists p a c,
    provider st = Some p /\ address (state st) = Some a /\
    chainId (state st) = Some c /\ a <> EmptyString /\ c <> 0%Z.
Proof.
  unfold not_ready. intros H.
  apply orb_false_elim in H as [H Hc].
  apply orb_false_elim in H as [Hp Ha].
  destruct (provider st) as [p|]; [|discriminate].
  destruct (address (state st)) as [[|ch a]|]; try discriminate.
  destruct (chainId (state st)) as [c|]; [|discriminate].
  exists p, (String ch a), c. repeat split; try discriminate.
  simpl in Hc. apply negb_false_iff, negb_true_iff, Z.eqb_neq in Hc. exact Hc.
Qed.

Lemma no_provider_not_ready st : provider st = None -> not_ready st = true.
Proof. unfold not_ready. intros ->. reflexivity. Qed.

Lemma signMessage_not_ready env st :
  not_ready st = true ->
  signMessage env st =
    (Normal None,
     mkStore (mkWalletState (address (state st)) (chainId (state st))
                            (isConnected (state st)) (isLoading (state st))
                            (Some "Wallet not connected"))
             (provider st),
     [mkWalletState (address (state st)) (chainId (state st))
                    (isConnected (state st)) (isLoading (state st))
                    (Some "Wallet not connected")]).
Proof.
  intros H. unfold signMessage, bind, render. rewrite H. reflexivity.
Qed.

(** C2. Without a live provider handle [signMessage] returns [null] and
    commits exactly one state: the previous one with [error] set to
    ["Wallet not connected"].  [isLoading] keeps its previous value in every
    state committed during the call, so the call never sets it. *)
Theorem signMessage_not_connected env st :
  provider st = None ->
  outcome (signMessage env st) = Normal None /\
  error (state (final (signMessage env st))) = Some "Wallet not connected" /\
  committed (signMessage env st) = [state (final (signMessage env st))] /\
  Forall (fun s => isLoading s = isLoading (state st) /\
                   address s = address (state st) /\
                   chainId s = chainId (state st) /\
                   isConnected s = isConnected (state st))
         (committed (signMessage env st)) /\
  provider (final (signMessage env st)) = None.
Proof.
  intros Hp.
  rewrite (signMessage_not_ready env st (no_provider_not_ready st Hp)).
  unfold outcome, final, committed; simpl.
  repeat split; auto.
Qed.

Lemma signMessage_not_connected_witness :
  provider initialStore = None /\
  outcome (signMessage (mkSignEnv (mkAmbient "h" "o" "0.i" "t")
                                  (fun _ => Thrown (new_Error "x")))
                       initialStore) = Normal None.
Proof.
  split; [reflexivity|].
  apply (signMessage_not_connected _ initialStore). reflexivity.
Defined.

(** ** [disconnect] and the account-change notification *)

(** C4. From every store [disconnect] ends normally in the initial store
    (the initial [WalletState], no provider handle), and a second
    [disconnect] right after it ends in that same store. *)
Theorem disconnect_resets st :
  outcome (disconnect st) = Normal tt /\
  state (final (disconnect st)) = mkWalletState None None false false None /\
  provider (final (disconnect st)) = None /\
  final (disconnect st) = initialStore /\
  final ((disconnect ;; disconnect) st) = final (disconnect st).
Proof. repeat split. Qed.

(** C8. An account-change notification with an empty list is [disconnect]:
    from every store (connected or not) both end the same way, commit the
    same states and leave the same store, the initial one. *)
Theorem accountsChanged_empty_is_disconnect st :
  accountsChanged [] st = disconnect st /\
  final (accountsChanged [] st) = initialStore.
Proof. split; reflexivity. Qed.

(** C9. An account-change notification with a non-empty list replaces
    [address] by the first account reported and leaves [chainId],
    [isConnected] (and [isLoading], [error] and the provider handle) as
    they were. *)
Theorem accountsChanged_nonempty_updates_address st first others :
  let r := accountsChanged (first :: others) st in
  outcome r = Normal tt /\
  address (state (final r)) = Some first /\
  chainId (state (final r)) = chainId (state st) /\
  isConnected (state (final r)) = isConnected (state st) /\
  isLoading (state (final r)) = isLoading (state st) /\
  error (state (final r)) = error (state st) /\
  provider (final r) = provider st /\
  committed r = [state (final r)].
Proof. repeat split. Qed.

(** ** [signMessage] past its guard *)

Lemma code_is_4001_iff e : code_is_4001 e = true <-> err_code e = NumCode 4001.
Proof.
  unfold code_is_4001. destruct (err_code e) as [|n|s0]; split; intros H;
    try discriminate.
  - apply Z.eqb_eq in H. now subst.
  - inversion H. reflexivity.
Qed.

Lemma signMessage_ready env st p a c :
  ready_with st p a c ->
  signMessage env st =
    match signing_answer env p (generateSiweMessage (sign_ambient env) a c) with
    | Normal signature =>
        (Normal (Some signature),
         mkStore (mkWalletState (address (state st)) (chainId (state st))
                                (isConnected (state st)) false None)
                 (provider st),
         [loading (state st);
          mkWalletState (address (state st)) (chainId (state st))
                        (isConnected (state st)) false None])
    | Thrown err =>
        (Normal None,
         mkStore (mkWalletState (address (state st)) (chainId (state st))
                    (isConnected (state st)) false
                    (Some (if code_is_4001 err
                           then "Signature rejected by user"
                           else "Failed to sign message")))
                 (provider st),
         [loading (state st);
          mkWalletState (address (state st)) (chainId (state st))
            (isConnected (state st)) false
            (Some (if code_is_4001 err
                   then "Signature rejected by user"
                   else "Failed to sign message"))])
    end.
Proof.
  intros (Hp & Ha & Hc & Hr).
  destruct st as [s pr]; simpl in Hp, Ha, Hc; subst pr.
  unfold signMessage, signing_answer, bind, render.
  rewrite Hr. cbn [provider state]. rewrite Ha, Hc.
  unfold try_catch, bind, await, setState, loading; simpl.
  rewrite Ha, Hc.
  destruct (getSigner env p) as [signer|err]; simpl; [|reflexivity].
  destruct (signer_signMessage signer _) as [signature|err]; reflexivity.
Qed.

(** C5. Past the guard, when the signing request fails with a thrown value
    [e], [signMessage] returns [null]; the final state has
    [isLoading = false] and keeps address, chain and connection flag; its
    [error] is ["Signature rejected by user"] exactly when [e.code] is the
    number 4001 and ["Failed to sign message"] in every other case. *)
Theorem signMessage_failure_classified env st p a c e :
  ready_with st p a c ->
  signing_answer env p (generateSiweMessage (sign_ambient env) a c)
    = Thrown e ->
  let r := signMessage env st in
  outcome r = Normal None /\
  isLoading (state (final r)) = false /\
  (err_code e = NumCode 4001 ->
     error (state (final r)) = Some "Signature rejected by user") /\
  (err_code e <> NumCode 4001 ->
     error (state (final r)) = Some "Failed to sign message") /\
  (error (state (final r)) = Some "Signature rejected by user"
     <-> err_code e = NumCode 4001) /\
  address (state (final r)) = address (state st) /\
  chainId (state (final r)) = chainId (state st) /\
  isConnected (state (final r)) = isConnected (state st) /\
  provider (final r) = provider st.
Proof.
  intros Hready Hfail r. subst r.
  rewrite (signMessage_ready env st p a c Hready), Hfail.
  unfold outcome, final; simpl.
  pose proof (code_is_4001_iff e) as H4001.
  destruct (code_is_4001 e) eqn:E.
  - assert (err_code e = NumCode 4001) as Hc by now apply H4001.
    repeat split; auto; intros; congruence.
  - assert (err_code e <> NumCode 4001) as Hc.
    { intros Hc. apply H4001 in Hc. discriminate. }
    repeat split; auto; intros; try congruence; try discriminate.
Qed.

Lemma signMessage_failure_classified_witness :
  error (state (final (signMessage refusing_env connected_store)))
    = Some "Signature rejected by user".
Proof.
  refine (proj1 (proj2 (proj2
    (signMessage_failure_classified refusing_env connected_store
       (newBrowserProvider demo_wallet) "0xABCD" 1%Z
       (mkJsError (NumCode 4001) (Some "denied")) _ _))) _).
  - repeat split.
  - reflexivity.
  - reflexivity.
Defined.

(** C10. Past the guard, when the signing request succeeds, [signMessage]
    returns the very signature the signer produced; the final state has
    [error = null] and [isLoading = false], and address, chain, connection
    flag and provider handle are those of the store it started from (also in
    the intermediate loading state). *)
Theorem signMessage_success_frame env st p a c signature :
  ready_with st p a c ->
  signing_answer env p (generateSiweMessage (sign_ambient env) a c)
    = Normal signature ->
  let r := signMessage env st in
  outcome r = Normal (Some signature) /\
  address (state (final r)) = address (state st) /\
  chainId (state (final r)) = chainId (state st) /\
  isConnected (state (final r)) = isConnected (state st) /\
  error (state (final r)) = None /\
  isLoading (state (final r)) = false /\
  provider (final r) = provider st /\
  committed r = [loading (state st); state (final r)].
Proof.
  intros Hready Hok r. subst r.
  rewrite (signMessage_ready env st p a c Hready), Hok.
  repeat split.
Qed.

Lemma signMessage_success_frame_witness :
  outcome (signMessage signing_env connected_store)
    = Normal (Some ("0xsigned:" ++
                    generateSiweMessage demo_ambient "0xABCD" 1%Z)).
Proof.
  refine (proj1
    (signMessage_success_frame signing_env connected_store
       (newBrowserProvider demo_wallet) "0xABCD" 1%Z _ _ _)).
  - repeat split.
  - reflexivity.
Defined.

(** ** [connect] *)

Lemma handle_after_failure_cell env s s' p :
  handle_after_failure env (mkStore s p)
  = handle_after_failure env (mkStore s' p).
Proof. reflexivity. Qed.

(** A connect variant that throws has committed nothing and left the state
    cell alone; the provider cell holds what [handle_after_failure] says,
    whatever the store the variant ran on. *)
Lemma connect_variant_thrown w env st e :
  outcome (connect_variant w env st) = Thrown e ->
  forall st',
    connect_variant w env st'
    = (Thrown e, mkStore (state st') (handle_after_failure env st'), []).
Proof.
  unfold outcome, connect_variant, connectMetaMask, connectWalletConnect,
    handle_after_failure.
  destruct w; destruct (window_ethereum env) as [eth|];
    unfold bind, await, throw;
    destruct (send_eth_requestAccounts env) as [[complaint|items]|e1];
    destruct (getNetwork env) as [network|e2]; simpl;
    intros H st'; inversion H; destruct st'; reflexivity.
Qed.

(** A connect variant that returns was answered with an array; it has
    stored a handle on the injected provider and reports the first account
    and the chain of the network, as a number. *)
Lemma connect_variant_returned w env st result :
  outcome (connect_variant w env st) = Normal result ->
  exists eth accounts network,
    window_ethereum env = Some eth /\
    send_eth_requestAccounts env = Normal (RpcArray accounts) /\
    getNetwork env = Normal network /\
    result = mkConnectResult (JS.index accounts 0)
                             (JS.to_number (net_chainId network)) /\
    forall st', connect_variant w env st' =
                (Normal result,
                 mkStore (state st') (Some (newBrowserProvider eth)), []).
Proof.
  unfold outcome, connect_variant, connectMetaMask, connectWalletConnect.
  destruct w; destruct (window_ethereum env) as [eth|];
    unfold bind, await, throw;
    destruct (send_eth_requestAccounts env) as [[complaint|items]|e1];
    destruct (getNetwork env) as [network|e2]; simpl;
    intros H; inversion H; subst;
    exists eth, items, network; repeat split.
Qed.

Lemma connect_when_thrown w env st e :
  outcome (connect_variant w env st) = Thrown e ->
  connect w env st =
    (Normal tt,
     mkStore (mkWalletState (address (state st)) (chainId (state st))
                (isConnected (state st)) false
                (Some (JS.or_else (err_message e) "Failed to connect wallet")))
             (handle_after_failure env st),
     [loading (state st);
      mkWalletState (address (state st)) (chainId (state st))
        (isConnected (state st)) false
        (Some (JS.or_else (err_message e) "Failed to connect wallet"))]).
Proof.
  intros H. unfold connect, bind, try_catch, setState at 1. simpl.
  rewrite (connect_variant_thrown w env st e H). simpl.
  rewrite (handle_after_failure_cell env _ (state st)).
  destruct st; reflexivity.
Qed.

Lemma connect_when_returned w env st result :
  outcome (connect_variant w env st) = Normal result ->
  exists eth,
    window_ethereum env = Some eth /\
    connect w env st =
      (Normal tt,
       mkStore (mkWalletState (result_address result)
                              (Some (result_chainId result)) true false None)
               (Some (newBrowserProvider eth)),
       [loading (state st);
        mkWalletState (result_address result)
                      (Some (result_chainId result)) true false None]).
Proof.
  intros H.
  destruct (connect_variant_returned w env st result H)
    as (eth & accounts & network & Hw & _ & _ & _ & Hrun).
  exists eth. split; [exact Hw|].
  unfold connect, bind, try_catch, setState at 1. simpl.
  rewrite Hrun. reflexivity.
Qed.

(** C3, as the code has it. When the chosen connect variant throws [e],
    [connect] itself ends normally; the final state has [isLoading = false]
    and [error] set to [e.message], or to ["Failed to connect wallet"] when
    [e] has no message or an empty one; address, chain and connection flag
    are those of the prior state, so that the final state is the
    disconnected one (with the error) when the prior state was.  The
    provider handle is the prior one too, except when [e] was thrown after
    the new handle had been stored: that is when the account request was
    answered [null] and the network query was answered; the new handle
    then stays. *)
Theorem connect_failure_keeps_prior w env st e :
  outcome (connect_variant w env st) = Thrown e ->
  let r := connect w env st in
  outcome r = Normal tt /\
  isLoading (state (final r)) = false /\
  error (state (final r)) =
    Some (match err_message e with
          | Some (String ch m) => String ch m
          | _ => "Failed to connect wallet"
          end) /\
  address (state (final r)) = address (state st) /\
  chainId (state (final r)) = chainId (state st) /\
  isConnected (state (final r)) = isConnected (state st) /\
  provider (final r)
    = match window_ethereum env, send_eth_requestAccounts env,
            getNetwork env with
      | Some eth, Normal (RpcNull _), Normal _ =>
          Some (newBrowserProvider eth)
      | _, _, _ => provider st
      end /\
  (address (state st) = None -> chainId (state st) = None ->
   isConnected (state st) = false ->
   address (state (final r)) = None /\ chainId (state (final r)) = None /\
   isConnected (state (final r)) = false).
Proof.
  intros H r. subst r. rewrite (connect_when_thrown w env st e H).
  unfold outcome, final; simpl.
  repeat split; auto.
  unfold JS.or_else. destruct (err_message e) as [[|ch m]|]; reflexivity.
Qed.

Lemma connect_failure_keeps_prior_witness :
  outcome (connect_variant metamask declining_env initialStore)
    = Thrown (mkJsError (NumCode 4001) (Some "User rejected the request."))
  /\ error (state (final (connect metamask declining_env initialStore)))
     = Some "User rejected the request.".
Proof.
  split; [reflexivity|].
  refine (proj1 (proj2 (proj2
    (connect_failure_keeps_prior metamask declining_env initialStore
       (mkJsError (NumCode 4001) (Some "User rejected the request.")) _)))).
  reflexivity.
Defined.

(** C3, as stated, fails: [connected_store] is what a granted connect
    leaves; a second connect that the user declines throws, and the state
    after it is still connected, with its address and chain. *)
Lemma connect_failure_stays_connected :
  final (connect metamask granting_env initialStore) = connected_store /\
  outcome (connect_variant metamask declining_env connected_store)
    = Thrown (mkJsError (NumCode 4001) (Some "User rejected the request."))
  /\ state (final (connect metamask declining_env connected_store))
     = mkWalletState (Some "0xABCD") (Some 1%Z) true false
                     (Some "User rejected the request.")
  /\ ~ (address (state (final (connect metamask declining_env
                                       connected_store))) = None /\
        chainId (state (final (connect metamask declining_env
                                       connected_store))) = None /\
        isConnected (state (final (connect metamask declining_env
                                           connected_store))) = false).
Proof.
  repeat split. intros (H & _). discriminate H.
Qed.

(** ** Disconnected stores hold no chain id *)

Lemma no_chain_not_ready st :
  chainId (state st) = None -> not_ready st = true.
Proof.
  unfold not_ready. intros ->. simpl. now rewrite !orb_true_r.
Qed.

Lemma run_no_chain_when_disconnected op st :
  (isConnected (state st) = false -> chainId (state st) = None) ->
  isConnected (state (fst (run op st))) = false ->
  chainId (state (fst (run op st))) = None.
Proof.
  intros Hst.
  destruct op as [w env|env| |accounts]; simpl.
  - destruct (outcome (connect_variant w env st)) as [result|e] eqn:E.
    + destruct (connect_when_returned w env st result E) as (eth & _ & ->).
      simpl. discriminate.
    + rewrite (connect_when_thrown w env st e E). exact Hst.
  - destruct (not_ready st) eqn:E.
    + rewrite (signMessage_not_ready env st E). exact Hst.
    + destruct (ready_inv st E) as (p & a & c & Hp & Ha & Hc & _).
      rewrite (signMessage_ready env st p a c) by (repeat split; assumption).
      destruct (signing_answer env p _); exact Hst.
  - reflexivity.
  - destruct accounts; [reflexivity|exact Hst].
Qed.

Lemma reachable_no_chain_when_disconnected st :
  reachable (fun _ => True) st ->
  isConnected (state st) = false -> chainId (state st) = None.
Proof.
  induction 1 as [|st op Hreach IH _]; [reflexivity|].
  now apply run_no_chain_when_disconnected.
Qed.

(** In every store the component can reach, [signMessage] called while
    [isConnected] is false takes the guard's branch. *)
Lemma signMessage_while_disconnected env st :
  reachable (fun _ => True) st ->
  isConnected (state st) = false ->
  outcome (signMessage env st) = Normal None /\
  error (state (final (signMessage env st))) = Some "Wallet not connected" /\
  isLoading (state (final (signMessage env st))) = isLoading (state st).
Proof.
  intros Hreach Hdis.
  pose proof (reachable_no_chain_when_disconnected st Hreach Hdis) as Hc.
  rewrite (signMessage_not_ready env st (no_chain_not_ready st Hc)).
  repeat split.
Qed.

(** ** The data-model invariant *)

Section Preservation.

Variable I : WalletState -> Prop.

Lemma keeps_ret {A} (a : A) (Q : A -> Prop) : Q a -> keeps I (ret a) Q.
Proof. intros H st HI. repeat split; auto. Qed.

Lemma keeps_throw {A} e (Q : A -> Prop) : keeps I (throw e) Q.
Proof. intros st HI. repeat split; auto. Qed.

Lemma keeps_await {A} (c : Completion A) (Q : A -> Prop) :
  (forall a, c = Normal a -> Q a) -> keeps I (await c) Q.
Proof.
  intros H. destruct c as [a|e]; simpl.
  - apply keeps_ret. auto.
  - apply keeps_throw.
Qed.

Lemma keeps_setProvider p : keeps I (setProvider p) (fun _ => True).
Proof. intros st HI. repeat split; auto. Qed.

Lemma keeps_render : keeps I render (fun _ => True).
Proof. intros st HI. repeat split; auto. Qed.

Lemma keeps_setState a :
  (forall prev, I prev -> I (apply_action a prev)) ->
  keeps I (setState a) (fun _ => True).
Proof.
  intros H st HI. unfold setState, final, committed, outcome; simpl.
  repeat split; auto.
Qed.

Lemma keeps_bind {A B} (m : Eff A) (k : A -> Eff B) Q R :
  keeps I m Q -> (forall a, Q a -> keeps I (k a) R) -> keeps I (bind m k) R.
Proof.
  intros Hm Hk st HI. specialize (Hm st HI).
  unfold bind, final, committed, outcome in *.
  destruct (m st) as [[[a|e] st1] log1]; simpl in *.
  - destruct Hm as (H1 & Hlog & HQ).
    specialize (Hk a HQ st1 H1).
    destruct (k a st1) as [[r st2] log2]; simpl in *.
    destruct Hk as (H2 & Hlog2 & HR).
    repeat split; auto. apply Forall_app; auto.
  - destruct Hm as (H1 & Hlog & _). repeat split; auto.
Qed.

Lemma keeps_try_catch {A} (body : Eff A) handler Q :
  keeps I body Q -> (forall e, keeps I (handler e) Q) ->
  keeps I (try_catch body handler) Q.
Proof.
  intros Hb Hh st HI. specialize (Hb st HI).
  unfold try_catch, final, committed, outcome in *.
  destruct (body st) as [[[a|e] st1] log1]; simpl in *.
  - exact Hb.
  - destruct Hb as (H1 & Hlog & _).
    specialize (Hh e st1 H1).
    destruct (handler e st1) as [[r st2] log2]; simpl in *.
    destruct Hh as (H2 & Hlog2 & HR).
    repeat split; auto. apply Forall_app; auto.
Qed.

Lemma keeps_weaken {A} (m : Eff A) (Q R : A -> Prop) :
  keeps I m Q -> (forall a, Q a -> R a) -> keeps I m R.
Proof.
  intros Hm HQR st HI. destruct (Hm st HI) as (H1 & H2 & H3).
  repeat split; auto. destruct (outcome (m st)); auto.
Qed.

End Preservation.

Lemma connect_variant_keeps I w env :
  reports_account (Connect w env) ->
  keeps I (connect_variant w env) (fun result => result_address result <> None).
Proof.
  intros Hrep st HI.
  unfold connect_variant, connectMetaMask, connectWalletConnect,
    final, committed, outcome.
  simpl in Hrep.
  destruct w; destruct (window_ethereum env) as [eth|];
    unfold bind, await, throw;
    destruct (send_eth_requestAccounts env)
      as [[complaint|[|first others]]|e1];
    destruct (getNetwork env) as [network|e2]; simpl;
    repeat split; auto; try discriminate; try (now elim Hrep).
Qed.

Lemma connect_keeps_identity w env :
  reports_account (Connect w env) ->
  keeps connected_has_identity (connect w env) (fun _ => True).
Proof.
  intros Hrep. unfold connect.
  eapply keeps_bind.
  - apply keeps_setState. intros prev Hprev. exact Hprev.
  - intros _ _. apply keeps_try_catch.
    + eapply keeps_bind; [apply (connect_variant_keeps _ w env Hrep)|].
      intros result Hres. apply keeps_setState.
      intros prev _ _. simpl. split; [exact Hres|discriminate].
    + intros e. apply keeps_setState. intros prev Hprev. exact Hprev.
Qed.

Lemma signMessage_keeps_identity env :
  keeps connected_has_identity (signMessage env) (fun _ => True).
Proof.
  unfold signMessage.
  eapply keeps_bind; [apply keeps_render|].
  intros seen _.
  destruct (not_ready seen).
  - eapply keeps_bind; [|intros; now apply keeps_ret].
    apply keeps_setState. intros prev Hprev. exact Hprev.
  - destruct (provider seen) as [p|]; [|now apply keeps_ret].
    destruct (address (state seen)) as [a|]; [|now apply keeps_ret].
    destruct (chainId (state seen)) as [c|]; [|now apply keeps_ret].
    eapply keeps_bind.
    { apply keeps_setState. intros prev Hprev. exact Hprev. }
    intros _ _. apply keeps_try_catch.
    + eapply keeps_bind; [apply keeps_await; intros; exact Logic.I|].
      intros signer _.
      eapply keeps_bind; [apply keeps_await; intros; exact Logic.I|].
      intros signature _.
      eapply keeps_bind; [|intros; now apply keeps_ret].
      apply keeps_setState. intros prev Hprev. exact Hprev.
    + intros e.
      eapply keeps_bind; [|intros; now apply keeps_ret].
      apply keeps_setState. intros prev Hprev. exact Hprev.
Qed.

Lemma disconnect_keeps_identity :
  keeps connected_has_identity disconnect (fun _ => True).
Proof.
  unfold disconnect.
  eapply keeps_bind; [apply keeps_setProvider|].
  intros _ _. apply keeps_setState. intros prev _ H. discriminate H.
Qed.

Lemma accountsChanged_keeps_identity accounts :
  keeps connected_has_identity (accountsChanged accounts) (fun _ => True).
Proof.
  unfold accountsChanged. destruct accounts as [|first others]; simpl.
  - apply disconnect_keeps_identity.
  - apply keeps_setState. intros prev Hprev Hc. simpl in *.
    split; [discriminate|]. now apply Hprev.
Qed.

Lemma run_keeps_identity op st :
  reports_account op ->
  connected_has_identity (state st) ->
  connected_has_identity (state (fst (run op st))) /\
  Forall connected_has_identity (snd (run op st)).
Proof.
  intros Hrep Hst.
  destruct op as [w env|env| |accounts]; simpl.
  - destruct (connect_keeps_identity w env Hrep st Hst) as (H1 & H2 & _).
    now split.
  - destruct (signMessage_keeps_identity env st Hst) as (H1 & H2 & _).
    now split.
  - destruct (disconnect_keeps_identity st Hst) as (H1 & H2 & _).
    now split.
  - destruct (accountsChanged_keeps_identity accounts st Hst) as (H1 & H2 & _).
    now split.
Qed.

Lemma reachable_identity st :
  reachable reports_account st -> connected_has_identity (state st).
Proof.
  induction 1 as [|st op Hreach IH Hop].
  - intros H. discriminate H.
  - now apply run_keeps_identity.
Qed.

(** C1, as the code has it. Take any store reached from the mount through
    connects, signs, disconnects and account-change notifications in which
    every granted account request named at least one account, and any such
    operation.  Then the state the operation leaves, and every state it
    commits on the way, has a non-null address and chain whenever its
    [isConnected] is true; and a connect whose variant returns leaves a
    connected state with both set. *)
Theorem connected_identity_invariant st op :
  reachable reports_account st ->
  reports_account op ->
  connected_has_identity (state (fst (run op st))) /\
  Forall connected_has_identity (snd (run op st)) /\
  (forall w env result,
     op = Connect w env ->
     outcome (connect_variant w env st) = Normal result ->
     isConnected (state (fst (run op st))) = true /\
     address (state (fst (run op st))) <> None /\
     chainId (state (fst (run op st))) <> None).
Proof.
  intros Hreach Hop.
  destruct (run_keeps_identity op st Hop (reachable_identity st Hreach))
    as (Hfinal & Hlog).
  split; [exact Hfinal|]. split; [exact Hlog|].
  intros w env result Heq Hret.
  assert (isConnected (state (fst (run op st))) = true) as Hc.
  { subst op.
    destruct (connect_when_returned w env st result Hret) as (eth & _ & Hrun).
    simpl. rewrite Hrun. reflexivity. }
  split; [exact Hc|]. exact (Hfinal Hc).
Qed.

Lemma connected_identity_invariant_witness :
  reachable reports_account initialStore /\
  reports_account (Connect metamask granting_env) /\
  connected_has_identity
    (state (fst (run (Connect metamask granting_env) initialStore))).
Proof.
  assert (reports_account (Connect metamask granting_env)) as Hop
    by (simpl; discriminate).
  split; [apply reachable_mount|]. split; [exact Hop|].
  exact (proj1 (connected_identity_invariant initialStore
                  (Connect metamask granting_env)
                  (reachable_mount reports_account) Hop)).
Defined.

(** C1, as stated, fails: a wallet that grants the account request with an
    empty list makes [connect] commit a state with [isConnected = true]
    whose address is [accounts[0]] of the empty list. *)
Lemma accountless_connect_breaks_identity :
  reachable (fun _ => True) initialStore /\
  outcome (connect_variant metamask accountless_env initialStore)
    = Normal (mkConnectResult None 1%Z) /\
  state (fst (run (Connect metamask accountless_env) initialStore))
    = mkWalletState None (Some 1%Z) true false None /\
  ~ connected_has_identity
      (state (fst (run (Connect metamask accountless_env) initialStore))).
Proof.
  split; [apply reachable_mount|]. repeat split.
  intros H. destruct (H eq_refl) as [Ha _]. now apply Ha.
Qed.

(** ** The challenge text *)

Lemma append_assoc (a b c : string) : (a ++ b) ++ c = a ++ (b ++ c).
Proof. induction a as [|ch a IH]; simpl; [reflexivity|now rewrite IH]. Qed.

Lemma lines_nonempty s : JS.lines s <> [].
Proof.
  destruct s as [|ch rest]; simpl; [discriminate|].
  destruct (Ascii.eqb ch JS.LF); [discriminate|].
  destruct (JS.lines rest); discriminate.
Qed.

(** Splitting distributes over a line feed. *)
Lemma lines_app_LF a b :
  JS.lines (a ++ String JS.LF b) = (JS.lines a ++ JS.lines b)%list.
Proof.
  induction a as [|ch a IH]; simpl.
  - reflexivity.
  - destruct (Ascii.eqb ch JS.LF); rewrite IH; [reflexivity|].
    pose proof (lines_nonempty a) as Hne.
    destruct (JS.lines a) as [|l ls]; [contradiction|reflexivity].
Qed.

Lemma lines_single_line s : JS.single_line s = true -> JS.lines s = [s].
Proof.
  induction s as [|ch s IH]; simpl; [reflexivity|].
  intros H. apply andb_true_iff in H as [Hch Hs].
  apply negb_true_iff in Hch. rewrite Hch, (IH Hs). reflexivity.
Qed.

Lemma single_line_app a b :
  JS.single_line (a ++ b) = JS.single_line a && JS.single_line b.
Proof.
  induction a as [|ch a IH]; simpl; [reflexivity|].
  rewrite IH. now rewrite andb_assoc.
Qed.

Lemma single_line_uint d : JS.single_line (NilEmpty.string_of_uint d) = true.
Proof. induction d; simpl; auto. Qed.

Lemma single_line_number n : JS.single_line (JS.number_to_string n) = true.
Proof.
  unfold JS.number_to_string, NilZero.string_of_int, NilZero.string_of_uint.
  destruct (Z.to_int n) as [d|d]; destruct d; simpl;
    auto using single_line_uint.
Qed.

(** The decimal text written for a chain id reads back as that chain id. *)
Lemma parse_number_to_string n :
  JS.parse_number (JS.number_to_string n) = Some n.
Proof.
  unfold JS.parse_number, JS.number_to_string.
  rewrite NilZero.isi.
  - simpl. now rewrite DecimalZ.of_to.
  - destruct n; simpl; try discriminate.
    intros H. inversion H as [Hp]. now apply DecimalPos.Unsigned.to_uint_nonnil in Hp.
  - destruct n; simpl; try discriminate.
    intros H. inversion H as [Hp]. now apply DecimalPos.Unsigned.to_uint_nonnil in Hp.
Qed.

Lemma nl_app x : JS.nl ++ x = String JS.LF x.
Proof. reflexivity. Qed.

Lemma lines_LF x : JS.lines (String JS.LF x) = EmptyString :: JS.lines x.
Proof. reflexivity. Qed.

(** The lines of the challenge, whatever its ingredients. *)
Lemma challenge_lines amb addr chain :
  JS.lines (generateSiweMessage amb addr chain) =
    (JS.lines (greeting amb) ++ JS.lines addr
     ++ [EmptyString; statement; EmptyString]
     ++ JS.lines (uri_line amb)
     ++ ["Version: 1"%string; chain_line chain]
     ++ JS.lines (nonce_line amb)
     ++ JS.lines (issued_line amb))%list.
Proof.
  unfold generateSiweMessage, greeting, uri_line, chain_line, nonce_line,
    issued_line.
  rewrite !nl_app.
  rewrite <- (append_assoc (location_host amb)).
  rewrite lines_app_LF. f_equal.
  rewrite lines_app_LF. f_equal.
  rewrite lines_LF. cbn [List.app]. f_equal.
  rewrite lines_app_LF, (lines_single_line statement eq_refl).
  cbn [List.app]. f_equal.
  rewrite lines_LF. f_equal.
  rewrite <- (append_assoc "URI: ").
  rewrite lines_app_LF. f_equal.
  rewrite lines_app_LF, (lines_single_line "Version: 1" eq_refl).
  cbn [List.app]. f_equal.
  rewrite <- (append_assoc "Chain ID: ").
  rewrite lines_app_LF.
  rewrite (lines_single_line ("Chain ID: " ++ JS.number_to_string chain)).
  2:{ rewrite single_line_app, single_line_number. reflexivity. }
  cbn [List.app]. f_equal.
  rewrite <- (append_assoc "Nonce: ").
  rewrite lines_app_LF. reflexivity.
Qed.

Lemma greeting_single_line amb :
  JS.single_line (location_host amb) = true ->
  JS.single_line (greeting amb) = true.
Proof.
  intros H. unfold greeting. rewrite single_line_app, H. reflexivity.
Qed.

(** Whatever the address, the origin or the nonce, the challenge has the
    line [Version: 1]. *)
Lemma challenge_version_line amb addr chain :
  In "Version: 1" (JS.lines (generateSiweMessage amb addr chain)).
Proof.
  rewrite challenge_lines.
  apply in_or_app; right. apply in_or_app; right.
  apply in_or_app; right. apply in_or_app; right.
  apply in_or_app; left. left. reflexivity.
Qed.

(** Whatever the address, the challenge has a line that starts with
    [Chain ID: ]; for a chain id that is a safe integer what follows is a
    decimal numeral that reads back as the chain id passed in. *)
Lemma challenge_chain_line amb addr chain :
  exists value,
    In ("Chain ID: " ++ value) (JS.lines (generateSiweMessage amb addr chain))
    /\ (JS.safe_integer chain -> JS.parse_number value = Some chain).
Proof.
  exists (JS.number_to_string chain). split.
  - rewrite challenge_lines.
    apply in_or_app; right. apply in_or_app; right.
    apply in_or_app; right. apply in_or_app; right.
    apply in_or_app; left. right. left. reflexivity.
  - intros _. apply parse_number_to_string.
Qed.

(** C6, as the code has it. Whatever the address, the page and the chain
    id, the challenge has the line [Version: 1] and a line that starts with
    [Chain ID: ]; for a chain id that is a safe integer, what follows on
    that line is the decimal numeral of the chain id passed in.  For a page
    host and an address that hold no line feed, the second line of the
    challenge is the address, character for character. *)
Theorem challenge_version_chain_address amb addr chain :
  In "Version: 1" (JS.lines (generateSiweMessage amb addr chain)) /\
  (exists value,
     In ("Chain ID: " ++ value)
        (JS.lines (generateSiweMessage amb addr chain)) /\
     (JS.safe_integer chain -> JS.parse_number value = Some chain)) /\
  (JS.single_line (location_host amb) = true ->
   JS.single_line addr = true ->
   nth_error (JS.lines (generateSiweMessage amb addr chain)) 1 = Some addr).
Proof.
  split; [apply challenge_version_line|].
  split; [apply challenge_chain_line|].
  intros Hhost Haddr.
  rewrite challenge_lines.
  rewrite (lines_single_line _ (greeting_single_line amb Hhost)).
  rewrite (lines_single_line addr Haddr).
  reflexivity.
Qed.

Lemma challenge_version_chain_address_witness :
  JS.single_line (location_host demo_ambient) = true /\
  JS.single_line "0xABCD" = true /\
  nth_error (JS.lines (generateSiweMessage demo_ambient "0xABCD" 80001)) 1
    = Some "0xABCD" /\
  exists value,
    In ("Chain ID: " ++ value)
       (JS.lines (generateSiweMessage demo_ambient "0xABCD" 80001)) /\
    JS.parse_number value = Some 80001%Z.
Proof.
  split; [reflexivity|]. split; [reflexivity|].
  destruct (challenge_version_chain_address demo_ambient "0xABCD" 80001)
    as (_ & (value & Hline & Hvalue) & Haddr).
  split.
  - exact (Haddr eq_refl eq_refl).
  - exists value. split; [exact Hline|].
    apply Hvalue. unfold JS.safe_integer, JS.max_safe_integer. simpl. lia.
Defined.

(** C6, as stated, fails: an address text with a line feed in it is spread
    over the second and third line of the challenge and is no line of it. *)
Lemma two_line_address_is_no_line :
  nth_error (JS.lines (generateSiweMessage demo_ambient two_line_address 1))
            1 = Some "0xAB" /\
  nth_error (JS.lines (generateSiweMessage demo_ambient two_line_address 1))
            2 = Some "CD" /\
  ~ In two_line_address
       (JS.lines (generateSiweMessage demo_ambient two_line_address 1)).
Proof.
  split; [reflexivity|]. split; [reflexivity|].
  intros H. vm_compute in H.
  repeat (destruct H as [H|H]; [discriminate H|]). exact H.
Qed.

(** ** The nonce *)

Lemma substring_length n m s :
  String.length (String.substring n m s) = Nat.min m (String.length s - n).
Proof.
  revert n m. induction s as [|ch s IH]; intros n m.
  - destruct n, m; simpl; try reflexivity; now rewrite Nat.min_0_r.
  - destruct n as [|n].
    + destruct m as [|m]; simpl; [reflexivity|].
      rewrite IH, Nat.sub_0_r. reflexivity.
    + simpl. apply IH.
Qed.

(** Asking for more characters than are left gives what is left. *)
Lemma substring_beyond n m m' s :
  String.length s - n <= m -> String.length s - n <= m' ->
  String.substring n m s = String.substring n m' s.
Proof.
  revert n m m'. induction s as [|ch s IH]; intros n m m' Hm Hm'.
  - destruct n, m, m'; reflexivity.
  - destruct n as [|n]; simpl in *.
    + destruct m as [|m]; [lia|]. destruct m' as [|m']; [lia|].
      f_equal. apply IH; lia.
    + apply IH; assumption.
Qed.

Lemma substring_past_end n m s :
  String.length s <= n -> String.substring n m s = EmptyString.
Proof.
  revert n m. induction s as [|ch s IH]; intros n m H.
  - destruct n, m; reflexivity.
  - destruct n as [|n]; simpl in *; [lia|]. apply IH. lia.
Qed.

(** [r.substring(2, 15)] is the piece of [r] that starts at its third
    character and has thirteen characters, or as many as are left. *)
Lemma substring_2_15 r : JS.substring r 2 15 = String.substring 2 13 r.
Proof.
  unfold JS.substring.
  destruct (Nat.le_gt_cases 15 (String.length r)) as [Hlong|Hshort].
  - rewrite !Nat.min_l by lia. rewrite Nat.max_r by lia. reflexivity.
  - rewrite (Nat.min_r 15) by lia.
    destruct (Nat.le_gt_cases 2 (String.length r)) as [H2|H2].
    + rewrite (Nat.min_l 2) by lia.
      rewrite Nat.min_l, Nat.max_r by lia.
      apply substring_beyond; lia.
    + rewrite (Nat.min_r 2) by lia.
      rewrite Nat.min_id, Nat.max_id, Nat.sub_diag.
      rewrite (substring_past_end 2 13) by lia.
      rewrite substring_past_end by lia. reflexivity.
Qed.

Lemma all_chars_substring f n m s :
  all_chars f s = true -> all_chars f (String.substring n m s) = true.
Proof.
  revert n m. induction s as [|ch s IH]; intros n m H.
  - destruct n, m; reflexivity.
  - simpl in H. apply andb_true_iff in H as [Hch Hs].
    destruct n as [|n]; simpl.
    + destruct m as [|m]; simpl; [reflexivity|].
      rewrite Hch. now apply IH.
    + now apply IH.
Qed.

(** When the rendering has the shape of a base-36 fraction, the nonce is
    made of base-36 digits only. *)
Lemma nonce_base36_digits amb :
  base36_fraction (random_base36 amb) = true ->
  all_chars is_base36_digit (nonce amb) = true.
Proof.
  unfold nonce. rewrite substring_2_15.
  destruct (random_base36 amb) as [|z [|dot digits]]; simpl;
    try discriminate; [reflexivity|].
  intros H. apply andb_true_iff in H as [_ Hd].
  change (String.substring 2 13 (String z (String dot digits)))
    with (String.substring 0 13 digits).
  now apply all_chars_substring.
Qed.

Lemma base36_digit_no_line_feed ch :
  is_base36_digit ch = true -> Ascii.eqb ch JS.LF = false.
Proof.
  intros H. destruct (Ascii.eqb_spec ch JS.LF) as [->|_]; [|reflexivity].
  discriminate H.
Qed.

Lemma base36_digits_single_line s :
  all_chars is_base36_digit s = true -> JS.single_line s = true.
Proof.
  induction s as [|ch s IH]; simpl; [reflexivity|].
  intros H. apply andb_true_iff in H as [Hch Hs].
  rewrite (base36_digit_no_line_feed ch Hch), (IH Hs). reflexivity.
Qed.

(** C7, as the code has it. Take a call of the Message Builder in which
    the text of [Math.random().toString(36)] is a base-36 fraction: ["0"],
    or ["0."] followed by base-36 digits.  The nonce of that call is this
    text from its third character on, cut to thirteen characters; it is
    made of base-36 digits only; it has thirteen characters when the text
    has fifteen or more and as many as the text has beyond its first two
    otherwise, so never more than thirteen and not always the same number;
    and it is the nonce on the [Nonce: ] line of the challenge the call
    returns. *)
Theorem nonce_at_most_thirteen amb addr chain :
  base36_fraction (random_base36 amb) = true ->
  nonce amb = String.substring 2 13 (random_base36 amb) /\
  all_chars is_base36_digit (nonce amb) = true /\
  String.length (nonce amb)
    = Nat.min 13 (String.length (random_base36 amb) - 2) /\
  String.length (nonce amb) <= 13 /\
  In ("Nonce: " ++ nonce amb) (JS.lines (generateSiweMessage amb addr chain)).
Proof.
  intros Hshape.
  pose proof (nonce_base36_digits amb Hshape) as Hdigits.
  split; [unfold nonce; apply substring_2_15|].
  split; [exact Hdigits|].
  split; [unfold nonce; now rewrite substring_2_15, substring_length|].
  split.
  { unfold nonce. rewrite substring_2_15, substring_length.
    apply Nat.le_min_l. }
  rewrite challenge_lines.
  rewrite (lines_single_line (nonce_line amb)).
  2:{ unfold nonce_line. rewrite single_line_app.
      rewrite (base36_digits_single_line _ Hdigits). reflexivity. }
  apply in_or_app; right. apply in_or_app; right.
  apply in_or_app; right. apply in_or_app; right.
  apply in_or_app; right. apply in_or_app; left. left. reflexivity.
Qed.

Lemma nonce_at_most_thirteen_witness :
  base36_fraction (random_base36 half_ambient) = true /\
  nonce half_ambient = "i" /\
  all_chars is_base36_digit (nonce half_ambient) = true.
Proof.
  split; [reflexivity|].
  destruct (nonce_at_most_thirteen half_ambient "0xABCD" 1 eq_refl)
    as (Hsub & Hdigits & _).
  split; [exact Hsub|exact Hdigits].
Defined.

(** C7, as stated, fails: one half renders as ["0.i"] in base 36 and gives
    a nonce of one character, where another draw gives eleven. *)
Lemma nonce_size_varies :
  base36_fraction (random_base36 half_ambient) = true /\
  base36_fraction (random_base36 demo_ambient) = true /\
  nonce half_ambient = "i" /\
  nonce demo_ambient = "4fzyo82mvyr" /\
  String.length (nonce half_ambient) <> String.length (nonce demo_ambient).
Proof. repeat split. discriminate. Qed.

(** * Further properties *)

(** ** [shortenAddress] *)

Lemma append_length a b :
  String.length (a ++ b) = String.length a + String.length b.
Proof. induction a as [|ch a IH]; simpl; [reflexivity|now rewrite IH]. Qed.

Lemma substring_whole m s :
  String.length s <= m -> String.substring 0 m s = s.
Proof.
  revert m. induction s as [|ch s IH]; intros m H.
  - destruct m; reflexivity.
  - destruct m as [|m]; simpl in *; [lia|]. f_equal. apply IH. lia.
Qed.

Lemma substring_head p r :
  String.substring 0 (String.length p) (p ++ r) = p.
Proof.
  induction p as [|ch p IH]; simpl.
  - destruct r; reflexivity.
  - now rewrite IH.
Qed.

Lemma substring_skip p n m r :
  String.substring (String.length p + n) m (p ++ r) = String.substring n m r.
Proof. induction p as [|ch p IH]; simpl; [reflexivity|exact IH]. Qed.

Lemma slice_first_six s :
  JS.slice s 0 (Some 6%Z) = String.substring 0 (Nat.min 6 (String.length s)) s.
Proof.
  unfold JS.slice, JS.slice_index.
  change (0 <? 0)%Z with false. change (6 <? 0)%Z with false.
  change (Z.to_nat 0) with 0. change (Z.to_nat 6) with 6.
  cbv iota. rewrite Nat.min_0_l, Nat.sub_0_r. reflexivity.
Qed.

Lemma slice_last_four s :
  JS.slice s (-4) None =
    String.substring (String.length s - 4)
                     (Nat.min 4 (String.length s)) s.
Proof.
  unfold JS.slice, JS.slice_index.
  change (-4 <? 0)%Z with true. cbv iota.
  replace (Z.to_nat (Z.max (Z.of_nat (String.length s) + -4) 0))
    with (String.length s - 4) by lia.
  f_equal. lia.
Qed.

(** X1. The short form of an address of [n] characters has
    [min 6 n + 3 + min 4 n] characters: thirteen from six characters on,
    never more. *)
Theorem shortenAddress_length addr :
  String.length (shortenAddress addr)
    = Nat.min 6 (String.length addr) + 3 + Nat.min 4 (String.length addr)
  /\ String.length (shortenAddress addr) <= 13
  /\ (6 <= String.length addr -> String.length (shortenAddress addr) = 13).
Proof.
  assert (String.length (shortenAddress addr)
          = Nat.min 6 (String.length addr) + 3
            + Nat.min 4 (String.length addr)) as H.
  { unfold shortenAddress.
    rewrite slice_first_six, slice_last_four.
    rewrite !append_length, !substring_length.
    change (String.length "...") with 3. lia. }
  rewrite H. repeat split; lia.
Qed.

Lemma shortenAddress_length_witness :
  String.length (shortenAddress long_address) = 13.
Proof.
  apply (proj2 (proj2 (shortenAddress_length long_address))).
  simpl. lia.
Defined.

(** X2. An address of ten characters or more is shortened to its first six
    characters, three dots and its last four characters. *)
Theorem shortenAddress_first_six_last_four first middle last :
  String.length first = 6 ->
  String.length last = 4 ->
  shortenAddress (first ++ middle ++ last) = first ++ "..." ++ last.
Proof.
  intros Hf Hl. unfold shortenAddress.
  rewrite slice_first_six, slice_last_four.
  rewrite !append_length, Hf, Hl.
  replace (Nat.min 6 (6 + (String.length middle + 4))) with 6 by lia.
  replace (Nat.min 4 (6 + (String.length middle + 4))) with 4 by lia.
  replace (6 + (String.length middle + 4) - 4)
    with (String.length (first ++ middle) + 0)
    by (rewrite append_length; lia).
  rewrite <- Hf at 1. rewrite substring_head.
  rewrite <- (append_assoc first middle last).
  rewrite substring_skip, substring_whole by lia.
  reflexivity.
Qed.

Lemma shortenAddress_first_six_last_four_witness :
  shortenAddress long_address = "0xABCD...12AB".
Proof.
  exact (shortenAddress_first_six_last_four
           "0xABCD" "EF12345678900000000000000000000000" "12AB"
           eq_refl eq_refl).
Defined.

(** X3. An address of four characters or fewer appears whole on both sides
    of the dots. *)
Theorem shortenAddress_of_short addr :
  String.length addr <= 4 ->
  shortenAddress addr = addr ++ "..." ++ addr.
Proof.
  intros H. unfold shortenAddress.
  rewrite slice_first_six, slice_last_four.
  replace (String.length addr - 4) with 0 by lia.
  rewrite !substring_whole by lia. reflexivity.
Qed.

Lemma shortenAddress_of_short_witness :
  shortenAddress "0x" = "0x...0x".
Proof. apply (shortenAddress_of_short "0x"). simpl. lia. Defined.

(** ** [getNetworkName] *)

Lemma number_to_string_inj a b :
  JS.number_to_string a = JS.number_to_string b -> a = b.
Proof.
  intros H. apply (f_equal JS.parse_number) in H.
  rewrite !parse_number_to_string in H. now inversion H.
Qed.

Lemma getNetworkName_cases chain :
  (chain = 1%Z /\ getNetworkName chain = "Ethereum Mainnet") \/
  (chain = 5%Z /\ getNetworkName chain = "Goerli") \/
  (chain = 11155111%Z /\ getNetworkName chain = "Sepolia") \/
  (chain = 137%Z /\ getNetworkName chain = "Polygon") \/
  (chain = 80001%Z /\ getNetworkName chain = "Mumbai") \/
  (~ In chain (map fst networks) /\
   getNetworkName chain = "Chain " ++ JS.number_to_string chain).
Proof.
  unfold getNetworkName, networks, property.
  destruct (Z.eqb_spec 1 chain) as [<-|H1]; [now left|].
  destruct (Z.eqb_spec 5 chain) as [<-|H5]; [now right; left|].
  destruct (Z.eqb_spec 11155111 chain) as [<-|Hs]; [now right; right; left|].
  destruct (Z.eqb_spec 137 chain) as [<-|Hp]; [now right; right; right; left|].
  destruct (Z.eqb_spec 80001 chain) as [<-|Hm];
    [now right; right; right; right; left|].
  right; right; right; right; right. split; [|reflexivity].
  simpl. intros [H|[H|[H|[H|[H|[]]]]]]; congruence.
Qed.

(** X4. For a chain id that is not a key of the table the label starts
    with [Chain ]; when the chain id is a safe integer, what follows is its
    decimal numeral, which reads back as the id. *)
Theorem getNetworkName_unlisted chain :
  ~ In chain (map fst networks) ->
  exists numeral,
    getNetworkName chain = "Chain " ++ numeral /\
    (JS.safe_integer chain -> JS.parse_number numeral = Some chain).
Proof.
  intros Hnot. exists (JS.number_to_string chain).
  split; [|intros _; apply parse_number_to_string].
  destruct (getNetworkName_cases chain)
    as [[-> _]|[[-> _]|[[-> _]|[[-> _]|[[-> _]|[_ H]]]]]];
    try (exfalso; apply Hnot; simpl; tauto).
  exact H.
Qed.

Lemma getNetworkName_unlisted_witness :
  exists numeral,
    getNetworkName 999 = "Chain " ++ numeral /\
    JS.parse_number numeral = Some 999%Z.
Proof.
  assert (~ In 999%Z (map fst networks)) as Hnot.
  { simpl. intros [H|[H|[H|[H|[H|[]]]]]]; discriminate H. }
  destruct (getNetworkName_unlisted 999 Hnot) as (numeral & Hname & Hread).
  exists numeral. split; [exact Hname|].
  apply Hread. unfold JS.safe_integer, JS.max_safe_integer. simpl. lia.
Defined.

(** X5. Two chain ids with the same label are the same chain id. *)
Theorem getNetworkName_injective a b :
  getNetworkName a = getNetworkName b -> a = b.
Proof.
  intros H.
  destruct (getNetworkName_cases a)
    as [[-> Ha]|[[-> Ha]|[[-> Ha]|[[-> Ha]|[[-> Ha]|[_ Ha]]]]]];
  destruct (getNetworkName_cases b)
    as [[-> Hb]|[[-> Hb]|[[-> Hb]|[[-> Hb]|[[-> Hb]|[_ Hb]]]]]];
  try reflexivity;
  rewrite Ha, Hb in H; simpl in H; try discriminate H.
  inversion H as [Hnum]. now apply number_to_string_inj.
Qed.

Lemma getNetworkName_injective_witness : 137%Z = 137%Z.
Proof. exact (getNetworkName_injective 137 137 eq_refl). Defined.

(** ** [Number] of a bigint *)

Lemma two_pow_53 : (2 ^ 53 = 9007199254740992)%Z.
Proof. reflexivity. Qed.

(** A safe integer goes through [Number] unchanged. *)
Lemma to_number_safe n : JS.safe_integer n -> JS.to_number n = n.
Proof.
  unfold JS.safe_integer, JS.max_safe_integer, JS.to_number.
  rewrite two_pow_53. intros H.
  destruct (Z.ltb_spec (Z.abs n) 9007199254740992); [reflexivity|lia].
Qed.

(** Only zero becomes zero. *)
Lemma to_number_nonzero n : n <> 0%Z -> JS.to_number n <> 0%Z.
Proof.
  intros Hn. unfold JS.to_number.
  destruct (Z.ltb_spec (Z.abs n) (2 ^ 53)) as [_|Hbig]; [exact Hn|].
  rewrite two_pow_53 in Hbig.
  assert (53 <= Z.log2 (Z.abs n))%Z as Hlog.
  { change 53%Z with (Z.log2 9007199254740992). now apply Z.log2_le_mono. }
  set (e := (Z.log2 (Z.abs n) - 52)%Z).
  assert (0 < 2 ^ e)%Z as Hpow by (apply Z.pow_pos_nonneg; lia).
  assert (2 ^ e <= Z.abs n)%Z as Hle.
  { transitivity (2 ^ Z.log2 (Z.abs n))%Z.
    - apply Z.pow_le_mono_r; lia.
    - apply Z.log2_spec. lia. }
  assert (0 < Z.abs n / 2 ^ e)%Z as Hq by (apply Z.div_str_pos; lia).
  set (q := (Z.abs n / 2 ^ e)%Z) in *.
  assert (Z.sgn n <> 0)%Z as Hs by (intros H; apply Z.sgn_null_iff in H; lia).
  destruct (Z.abs n mod 2 ^ e <? 2 ^ (e - 1))%Z;
    [|destruct (2 ^ (e - 1) <? Z.abs n mod 2 ^ e)%Z;
      [|destruct (Z.even q)]]; nia.
Qed.

(** ** [connect], whatever the wallet answers *)

Lemma connect_when_granted w env st eth (accounts : list string) network :
  window_ethereum env = Some eth ->
  send_eth_requestAccounts env = Normal (RpcArray accounts) ->
  getNetwork env = Normal network ->
  connect w env st =
    (Normal tt,
     mkStore (mkWalletState (JS.index accounts 0)
                            (Some (JS.to_number (net_chainId network)))
                            true false None)
             (Some (newBrowserProvider eth)),
     [loading (state st);
      mkWalletState (JS.index accounts 0)
                    (Some (JS.to_number (net_chainId network)))
                    true false None]).
Proof.
  intros Hw Ha Hn.
  assert (outcome (connect_variant w env st)
          = Normal (mkConnectResult (JS.index accounts 0)
                      (JS.to_number (net_chainId network)))) as Hret.
  { unfold outcome, connect_variant, connectMetaMask, connectWalletConnect.
    destruct w; rewrite Hw; unfold bind, await; rewrite Ha, Hn; reflexivity. }
  destruct (connect_when_returned w env st _ Hret) as (eth' & Hw' & Hrun).
  rewrite Hw in Hw'. inversion Hw'; subst eth'. exact Hrun.
Qed.

(** X6. [connect] never throws to its caller, whatever the wallet type,
    the surroundings and the store: it commits two states, first the prior
    one with [isLoading = true] and [error = null], then the one it
    leaves, whose [isLoading] is false. *)
Theorem connect_always_settles w env st :
  outcome (connect w env st) = Normal tt /\
  committed (connect w env st)
    = [loading (state st); state (final (connect w env st))] /\
  isLoading (state (final (connect w env st))) = false.
Proof.
  destruct (outcome (connect_variant w env st)) as [result|e] eqn:E.
  - destruct (connect_when_returned w env st result E) as (eth & _ & ->).
    repeat split.
  - rewrite (connect_when_thrown w env st e E). repeat split.
Qed.

(** X7. When the page has an injected provider, the account request is
    answered with an array and the network query with a chain id that
    [Number] keeps finite, [connect] leaves, from any prior store and for
    either wallet type, the state [{accounts[0], Number(chainId),
    isConnected: true, isLoading: false, error: null}] and a provider
    handle on the injected provider.  The stored chain id is the one of the
    network itself when that is a safe integer. *)
Theorem connect_granted w env st eth (accounts : list string) network :
  window_ethereum env = Some eth ->
  send_eth_requestAccounts env = Normal (RpcArray accounts) ->
  getNetwork env = Normal network ->
  JS.double_range (net_chainId network) ->
  state (final (connect w env st))
    = mkWalletState (nth_error accounts 0)
                    (Some (JS.to_number (net_chainId network)))
                    true false None /\
  provider (final (connect w env st)) = Some (newBrowserProvider eth) /\
  (JS.safe_integer (net_chainId network) ->
   chainId (state (final (connect w env st)))
     = Some (net_chainId network)).
Proof.
  intros Hw Ha Hn _.
  rewrite (connect_when_granted w env st eth accounts network Hw Ha Hn).
  unfold final; simpl. repeat split.
  intros Hsafe. now rewrite to_number_safe.
Qed.

Lemma connect_granted_witness :
  final (connect walletconnect granting_env initialStore) = connected_store.
Proof.
  assert (JS.double_range 1) as Hrange by (unfold JS.double_range; reflexivity).
  destruct (connect_granted walletconnect granting_env initialStore
              demo_wallet ["0xABCD"; "0xEF01"] (mkNetwork 1)
              eq_refl eq_refl eq_refl Hrange) as (Hs & Hp & _).
  destruct (final (connect walletconnect granting_env initialStore))
    as [s p]. simpl in Hs, Hp. subst s p. reflexivity.
Defined.

(** X8. Without an injected provider [connect] asks the wallet nothing:
    whatever the other answers would have been, it leaves the prior
    address, chain, connection flag and provider handle, with
    [isLoading = false] and the message of the chosen wallet type as
    [error]. *)
Theorem connect_without_injected_provider w env st :
  window_ethereum env = None ->
  state (final (connect w env st))
    = mkWalletState (address (state st)) (chainId (state st))
        (isConnected (state st)) false
        (Some match w with
              | metamask =>
                  "MetaMask is not installed. Please install MetaMask to continue."
              | walletconnect =>
                  "WalletConnect requires a Web3 provider. Install MetaMask as fallback."
              end) /\
  provider (final (connect w env st)) = provider st.
Proof.
  intros Hw.
  assert (exists msg,
            outcome (connect_variant w env st) = Thrown (new_Error msg) /\
            msg = match w with
                  | metamask =>
                      "MetaMask is not installed. Please install MetaMask to continue."
                  | walletconnect =>
                      "WalletConnect requires a Web3 provider. Install MetaMask as fallback."
                  end) as (msg & Hthrown & Hmsg).
  { unfold outcome, connect_variant, connectMetaMask, connectWalletConnect.
    destruct w; rewrite Hw; eexists; split; reflexivity. }
  rewrite (connect_when_thrown w env st _ Hthrown). subst msg.
  unfold final, handle_after_failure; simpl. rewrite Hw.
  destruct w; split; reflexivity.
Qed.

Lemma connect_without_injected_provider_witness :
  error (state (final (connect walletconnect
                         (mkConnectEnv None (Normal ["0xABCD"])
                                       (Normal (mkNetwork 1)))
                         initialStore)))
  = Some "WalletConnect requires a Web3 provider. Install MetaMask as fallback.".
Proof.
  exact (f_equal error
    (proj1 (connect_without_injected_provider walletconnect
              (mkConnectEnv None (Normal ["0xABCD"]) (Normal (mkNetwork 1)))
              initialStore eq_refl))).
Defined.

(** X9. With an injected provider the two wallet types are one and the
    same operation: same outcome, same committed states, same store. *)
Theorem connect_wallet_types_agree env st eth :
  window_ethereum env = Some eth ->
  connect metamask env st = connect walletconnect env st.
Proof.
  intros Hw.
  unfold connect, connect_variant, connectMetaMask, connectWalletConnect.
  rewrite Hw. reflexivity.
Qed.

Lemma connect_wallet_types_agree_witness :
  connect metamask declining_env connected_store
  = connect walletconnect declining_env connected_store.
Proof.
  exact (connect_wallet_types_agree declining_env connected_store
           demo_wallet eq_refl).
Defined.

(** ** [signMessage], whatever the store *)

Lemma signMessage_cases env st :
  (not_ready st = true /\
   signMessage env st =
     (Normal None,
      mkStore (mkWalletState (address (state st)) (chainId (state st))
                 (isConnected (state st)) (isLoading (state st))
                 (Some "Wallet not connected"))
              (provider st),
      [mkWalletState (address (state st)) (chainId (state st))
         (isConnected (state st)) (isLoading (state st))
         (Some "Wallet not connected")])) \/
  (exists p a c signature,
     ready_with st p a c /\
     signing_answer env p (generateSiweMessage (sign_ambient env) a c)
       = Normal signature /\
     signMessage env st =
       (Normal (Some signature),
        mkStore (mkWalletState (address (state st)) (chainId (state st))
                               (isConnected (state st)) false None)
                (provider st),
        [loading (state st);
         mkWalletState (address (state st)) (chainId (state st))
                       (isConnected (state st)) false None])) \/
  (exists p a c err,
     ready_with st p a c /\
     signing_answer env p (generateSiweMessage (sign_ambient env) a c)
       = Thrown err /\
     signMessage env st =
       (Normal None,
        mkStore (mkWalletState (address (state st)) (chainId (state st))
                   (isConnected (state st)) false
                   (Some (if code_is_4001 err
                          then "Signature rejected by user"
                          else "Failed to sign message")))
                (provider st),
        [loading (state st);
         mkWalletState (address (state st)) (chainId (state st))
           (isConnected (state st)) false
           (Some (if code_is_4001 err
                  then "Signature rejected by user"
                  else "Failed to sign message"))])).
Proof.
  destruct (not_ready st) eqn:E.
  - left. split; [reflexivity|]. now apply signMessage_not_ready.
  - right. destruct (ready_inv st E) as (p & a & c & Hp & Ha & Hc & _).
    assert (ready_with st p a c) as Hready by (repeat split; assumption).
    pose proof (signMessage_ready env st p a c Hready) as Hrun.
    destruct (signing_answer env p _) as [signature|err] eqn:Hans.
    + left. exists p, a, c, signature. repeat split; assumption.
    + right. exists p, a, c, err. repeat split; assumption.
Qed.

(** X10. [signMessage] never throws to its caller, and it returns [null]
    exactly when the state it leaves carries an error message. *)
Theorem signMessage_null_iff_error env st :
  exists result,
    outcome (signMessage env st) = Normal result /\
    (result = None <-> error (state (final (signMessage env st))) <> None).
Proof.
  destruct (signMessage_cases env st)
    as [[_ ->]|[(p & a & c & sg & _ & _ & ->)|(p & a & c & e & _ & _ & ->)]].
  - exists None. split; [reflexivity|]. split; [discriminate|reflexivity].
  - exists (Some sg). split; [reflexivity|].
    split; [discriminate|]. intros H. now elim H.
  - exists None. split; [reflexivity|]. split; [discriminate|reflexivity].
Qed.

Lemma signMessage_null_iff_error_witness :
  exists result,
    outcome (signMessage refusing_env connected_store) = Normal result /\
    (result = None <->
     error (state (final (signMessage refusing_env connected_store)))
       <> None).
Proof. exact (signMessage_null_iff_error refusing_env connected_store). Defined.

(** X11. [signMessage] leaves the error ["Wallet not connected"] exactly
    when its guard fires: no provider handle, or an address that is null or
    empty, or a chain id that is null or zero, even in a store whose
    [isConnected] is true. *)
Theorem signMessage_wallet_not_connected_iff env st :
  error (state (final (signMessage env st))) = Some "Wallet not connected"
  <-> (provider st = None \/
       address (state st) = None \/ address (state st) = Some EmptyString \/
       chainId (state st) = None \/ chainId (state st) = Some 0%Z).
Proof.
  assert (not_ready st = true <->
          (provider st = None \/
           address (state st) = None \/ address (state st) = Some EmptyString \/
           chainId (state st) = None \/ chainId (state st) = Some 0%Z))
    as Hguard.
  { unfold not_ready.
    destruct (provider st) as [p|]; simpl; [|split; auto].
    destruct (address (state st)) as [[|ch a]|]; simpl;
      try (split; auto; fail).
    destruct (chainId (state st)) as [c|]; simpl; [|split; auto].
    destruct (Z.eqb_spec c 0) as [->|Hc]; simpl; [split; auto|].
    split; [discriminate|].
    intros [H|[H|[H|[H|H]]]]; try discriminate H.
    inversion H. contradiction. }
  rewrite <- Hguard.
  destruct (signMessage_cases env st)
    as [[Hn ->]|[(p & a & c & sg & Hr & _ & ->)|(p & a & c & e & Hr & _ & ->)]];
    unfold final; simpl.
  - split; auto.
  - destruct Hr as (_ & _ & _ & Hr). rewrite Hr. split; discriminate.
  - destruct Hr as (_ & _ & _ & Hr). rewrite Hr.
    split; [|discriminate]. destruct (code_is_4001 e); discriminate.
Qed.

Lemma signMessage_wallet_not_connected_iff_witness :
  isConnected (state chain_zero_store) = true /\
  error (state (final (signMessage signing_env chain_zero_store)))
    = Some "Wallet not connected".
Proof.
  split; [reflexivity|].
  apply (proj2 (signMessage_wallet_not_connected_iff signing_env
                  chain_zero_store)).
  right; right; right; right. reflexivity.
Defined.

(** X12. [signMessage] never changes the address, the chain, the connection
    flag or the provider handle, in the state it leaves as in every state
    it commits. *)
Theorem signMessage_keeps_connection env st :
  provider (final (signMessage env st)) = provider st /\
  Forall (fun s => address s = address (state st) /\
                   chainId s = chainId (state st) /\
                   isConnected s = isConnected (state st))
         (state (final (signMessage env st))
            :: committed (signMessage env st)).
Proof.
  destruct (signMessage_cases env st)
    as [[_ ->]|[(p & a & c & sg & _ & _ & ->)|(p & a & c & e & _ & _ & ->)]];
    unfold final, committed; simpl; split; auto;
    repeat constructor.
Qed.

(** ** Stores between operations *)

Lemma run_settled op st : settled st -> settled (fst (run op st)).
Proof.
  intros (Hl & Hp & Hc).
  destruct op as [w env|env| |accounts]; simpl.
  - destruct (outcome (connect_variant w env st)) as [result|e] eqn:E.
    + destruct (connect_when_returned w env st result E) as (eth & _ & ->).
      unfold settled, final; simpl.
      repeat split; auto; discriminate.
    + rewrite (connect_when_thrown w env st e E).
      unfold settled, final, handle_after_failure; simpl.
      split; [reflexivity|]. split; [|exact Hc].
      intros Hcon. specialize (Hp Hcon).
      destruct (window_ethereum env); [|exact Hp].
      destruct (send_eth_requestAccounts env) as [[complaint|items]|e1];
        try exact Hp.
      destruct (getNetwork env); [discriminate|exact Hp].
  - destruct (signMessage_cases env st)
      as [[_ ->]|[(p & a & c & sg & _ & _ & ->)|(p & a & c & e & _ & _ & ->)]];
      unfold settled, final; simpl; tauto.
  - unfold settled, final; simpl.
    repeat split; try discriminate; intros H; now elim H.
  - destruct accounts as [|first others]; unfold settled, final; simpl.
    + repeat split; try discriminate; intros H; now elim H.
    + tauto.
Qed.

(** X13. Whatever the wallet answered along the way, a store reached from
    the mount through whole operations has [isLoading = false]; when its
    [isConnected] is true it holds a provider handle; and its
    [isConnected] is true exactly when its chain id is set.  (A handle
    without connection is possible: see [null_answer_leaves_handle].) *)
Theorem reachable_settled st :
  reachable (fun _ => True) st ->
  isLoading (state st) = false /\
  (isConnected (state st) = true -> provider st <> None) /\
  (isConnected (state st) = true <-> chainId (state st) <> None).
Proof.
  induction 1 as [|st op Hreach IH _].
  - repeat split; try discriminate; intros H; now elim H.
  - now apply run_settled.
Qed.

Lemma reachable_settled_witness :
  isLoading (state (fst (run (Connect metamask accountless_env)
                             initialStore))) = false.
Proof.
  apply (reachable_settled
           (fst (run (Connect metamask accountless_env) initialStore))).
  apply reachable_step; [apply reachable_mount|exact Logic.I].
Defined.

(** An account request answered [null] makes [connect] fail after the
    handle was stored: the store it leaves is disconnected, carries the
    message of the [TypeError] and holds a provider handle. *)
Lemma null_answer_leaves_handle :
  state (final (connect metamask null_answer_env initialStore))
    = mkWalletState None None false false
                    (Some "Cannot read properties of null") /\
  provider (final (connect metamask null_answer_env initialStore))
    = Some (newBrowserProvider demo_wallet).
Proof. split; reflexivity. Qed.

(** ** Connect, then sign *)

(** X14. After a granted connect whose first account is a non-empty text
    and whose chain id is a safe integer other than zero, [signMessage]
    asks the signer of the stored provider handle to sign the challenge
    built for that account and that chain, and returns what the signer
    answers ([null] if it throws). *)
Theorem connect_then_signMessage w cenv senv st eth first others network
  signer :
  window_ethereum cenv = Some eth ->
  send_eth_requestAccounts cenv = Normal (RpcArray (first :: others)) ->
  first <> EmptyString ->
  getNetwork cenv = Normal network ->
  JS.safe_integer (net_chainId network) ->
  net_chainId network <> 0%Z ->
  getSigner senv (newBrowserProvider eth) = Normal signer ->
  outcome ((connect w cenv ;; signMessage senv) st)
    = match signer_signMessage signer
              (generateSiweMessage (sign_ambient senv) first
                                   (net_chainId network)) with
      | Normal signature => Normal (Some signature)
      | Thrown _ => Normal None
      end.
Proof.
  intros Hw Ha Hfirst Hn Hsafe Hchain Hsigner.
  unfold bind.
  rewrite (connect_when_granted w cenv st eth _ network Hw Ha Hn).
  rewrite (to_number_safe _ Hsafe).
  set (st1 := mkStore _ _).
  assert (ready_with st1 (newBrowserProvider eth) first (net_chainId network))
    as Hready.
  { repeat split. unfold not_ready, st1; simpl.
    destruct first; [contradiction|]. simpl.
    destruct (Z.eqb_spec (net_chainId network) 0); [contradiction|reflexivity]. }
  rewrite (signMessage_ready senv st1 _ _ _ Hready).
  unfold signing_answer. rewrite Hsigner.
  destruct (signer_signMessage signer _); reflexivity.
Qed.

Lemma connect_then_signMessage_witness :
  outcome ((connect metamask granting_env ;; signMessage signing_env)
             initialStore)
  = Normal (Some ("0xsigned:" ++
                  generateSiweMessage demo_ambient "0xABCD" 1%Z)).
Proof.
  refine (connect_then_signMessage metamask granting_env signing_env
            initialStore demo_wallet "0xABCD" ["0xEF01"] (mkNetwork 1)
            demo_signer eq_refl eq_refl _ eq_refl _ _ eq_refl);
    try discriminate.
  unfold JS.safe_integer, JS.max_safe_integer. simpl. lia.
Defined.

(** X15. After the wallet switches to another account, the next
    [signMessage] signs for that account: in a store that holds a provider
    handle and a non-zero chain id, an account-change notification whose
    first account is a non-empty text makes [signMessage] ask for a
    signature of the challenge built for this first account. *)
Theorem account_switch_then_signMessage env st p chain first others signer :
  provider st = Some p ->
  chainId (state st) = Some chain ->
  chain <> 0%Z ->
  first <> EmptyString ->
  getSigner env p = Normal signer ->
  outcome ((accountsChanged (first :: others) ;; signMessage env) st)
    = match signer_signMessage signer
              (generateSiweMessage (sign_ambient env) first chain) with
      | Normal signature => Normal (Some signature)
      | Thrown _ => Normal None
      end.
Proof.
  intros Hp Hc Hchain Hfirst Hsigner.
  unfold bind, accountsChanged, setState. simpl.
  set (st1 := mkStore _ _).
  assert (ready_with st1 p first chain) as Hready.
  { unfold st1. repeat split; auto. unfold not_ready; simpl.
    rewrite Hp, Hc. destruct first; [contradiction|]. simpl.
    destruct (Z.eqb_spec chain 0); [contradiction|reflexivity]. }
  rewrite (signMessage_ready env st1 _ _ _ Hready).
  unfold signing_answer. rewrite Hsigner.
  destruct (signer_signMessage signer _); reflexivity.
Qed.

Lemma account_switch_then_signMessage_witness :
  outcome ((accountsChanged ["0xEF01"] ;; signMessage signing_env)
             connected_store)
  = Normal (Some ("0xsigned:" ++
                  generateSiweMessage demo_ambient "0xEF01" 1%Z)).
Proof.
  refine (account_switch_then_signMessage signing_env connected_store
            (newBrowserProvider demo_wallet) 1%Z "0xEF01" [] demo_signer
            eq_refl eq_refl _ _ eq_refl);
    discriminate.
Defined.

(** ** The layout of the challenge *)

Lemma single_line_substring n m s :
  JS.single_line s = true -> JS.single_line (String.substring n m s) = true.
Proof.
  revert n m. induction s as [|ch s IH]; intros n m H.
  - destruct n, m; reflexivity.
  - simpl in H. apply andb_true_iff in H as [Hch Hs].
    destruct n as [|n]; simpl.
    + destruct m as [|m]; simpl; [reflexivity|].
      rewrite Hch. now apply IH.
    + now apply IH.
Qed.

(** X16. When the page host, the address, the origin, the random text and
    the time stamp hold no line feed, the challenge has exactly ten lines:
    the greeting, the address, an empty line, the statement, an empty line,
    and the [URI], [Version], [Chain ID], [Nonce] and [Issued At] lines, in
    this order. *)
Theorem challenge_ten_lines amb addr chain :
  JS.single_line (location_host amb) = true ->
  JS.single_line addr = true ->
  JS.single_line (location_origin amb) = true ->
  JS.single_line (random_base36 amb) = true ->
  JS.single_line (date_iso amb) = true ->
  JS.lines (generateSiweMessage amb addr chain) =
    [ greeting amb;
      addr;
      EmptyString;
      "Sign in to verify your wallet ownership";
      EmptyString;
      uri_line amb;
      "Version: 1";
      chain_line chain;
      nonce_line amb;
      issued_line amb ].
Proof.
  intros Hhost Haddr Horigin Hrandom Hdate.
  rewrite challenge_lines.
  rewrite (lines_single_line _ (greeting_single_line amb Hhost)).
  rewrite (lines_single_line addr Haddr).
  rewrite (lines_single_line (uri_line amb)).
  2:{ unfold uri_line. rewrite single_line_app, Horigin. reflexivity. }
  rewrite (lines_single_line (nonce_line amb)).
  2:{ unfold nonce_line, nonce. rewrite single_line_app, substring_2_15.
      rewrite single_line_substring by assumption. reflexivity. }
  rewrite (lines_single_line (issued_line amb)).
  2:{ unfold issued_line. rewrite single_line_app, Hdate. reflexivity. }
  reflexivity.
Qed.

Lemma challenge_ten_lines_witness :
  List.length (JS.lines (generateSiweMessage demo_ambient "0xABCD" 1)) = 10.
Proof.
  exact (f_equal (@List.length string)
           (challenge_ten_lines demo_ambient "0xABCD" 1
              eq_refl eq_refl eq_refl eq_refl eq_refl)).
Defined.

(** ** The page of [App.tsx]: sign-in, disconnect and the wallet modal *)

Lemma lift_run {A} (m : Eff A) pg :
  lift m pg =
    (outcome (m (wallet pg)),
     mkPage (final (m (wallet pg))) (showModal pg) (authStatus pg)).
Proof.
  unfold lift, outcome, final.
  destruct (m (wallet pg)) as [[r st] log]. reflexivity.
Qed.

Lemma signMessage_returns env st :
  exists result, outcome (signMessage env st) = Normal result.
Proof.
  destruct (signMessage_cases env st)
    as [[_ ->]|[(p & a & c & sg & _ & _ & ->)|(p & a & c & e & _ & _ & ->)]];
    eexists; reflexivity.
Qed.

Lemma connect_returns w env st : outcome (connect w env st) = Normal tt.
Proof.
  destruct (outcome (connect_variant w env st)) as [result|e] eqn:E.
  - destruct (connect_when_returned w env st result E) as (eth & _ & ->).
    reflexivity.
  - rewrite (connect_when_thrown w env st e E). reflexivity.
Qed.

Lemma handleSignIn_run env pg :
  exists result,
    outcome (signMessage env (wallet pg)) = Normal result /\
    handleSignIn env pg =
      (Normal tt,
       mkPage (final (signMessage env (wallet pg))) (showModal pg)
              (if JS.truthy_string result then authenticated else idle)).
Proof.
  destruct (signMessage_returns env (wallet pg)) as (result & Hres).
  exists result. split; [exact Hres|].
  unfold handleSignIn, page_bind, setAuthStatus. simpl.
  rewrite lift_run. simpl. rewrite Hres.
  destruct (JS.truthy_string result); reflexivity.
Qed.

(** X17. [handleSignIn] never throws and never leaves [authStatus] at
    [signing]: it ends [authenticated] exactly when [signMessage] returned
    a non-empty signature, and [idle] otherwise; the wallet cells are as
    [signMessage] left them and the modal flag is untouched. *)
Theorem handleSignIn_authenticates_iff_signed env pg :
  page_outcome (handleSignIn env pg) = Normal tt /\
  (authStatus (page_final (handleSignIn env pg)) = authenticated <->
   exists ch rest,
     outcome (signMessage env (wallet pg)) = Normal (Some (String ch rest)))
  /\
  (authStatus (page_final (handleSignIn env pg)) <> authenticated ->
   authStatus (page_final (handleSignIn env pg)) = idle) /\
  wallet (page_final (handleSignIn env pg))
    = final (signMessage env (wallet pg)) /\
  showModal (page_final (handleSignIn env pg)) = showModal pg.
Proof.
  destruct (handleSignIn_run env pg) as (result & Hres & ->).
  unfold page_outcome, page_final; simpl.
  rewrite Hres.
  destruct result as [[|ch rest]|]; simpl; repeat split; auto;
    try discriminate;
    try (intros (ch' & rest' & H); discriminate H).
  - intros _. now exists ch, rest.
  - intros H. now elim H.
Qed.

Lemma handleSignIn_authenticates_iff_signed_witness :
  authStatus (page_final (handleSignIn signing_env connected_page))
    = authenticated.
Proof.
  apply (proj2 (proj1 (proj2
    (handleSignIn_authenticates_iff_signed signing_env connected_page)))).
  eexists; eexists; reflexivity.
Defined.

(** X18. A signer that answers with the empty text is not taken for a
    signature: past the guard, [signMessage] then returns that empty text
    and leaves no error, and [handleSignIn] ends [idle]. *)
Theorem handleSignIn_empty_signature env pg p a c :
  ready_with (wallet pg) p a c ->
  signing_answer env p (generateSiweMessage (sign_ambient env) a c)
    = Normal EmptyString ->
  outcome (signMessage env (wallet pg)) = Normal (Some EmptyString) /\
  authStatus (page_final (handleSignIn env pg)) = idle /\
  error (state (wallet (page_final (handleSignIn env pg)))) = None /\
  isLoading (state (wallet (page_final (handleSignIn env pg)))) = false.
Proof.
  intros Hready Hans.
  destruct (handleSignIn_run env pg) as (result & Hres & ->).
  rewrite (signMessage_ready env (wallet pg) p a c Hready), Hans in *.
  unfold outcome in Hres; simpl in Hres. inversion Hres; subst result.
  repeat split.
Qed.

Lemma handleSignIn_empty_signature_witness :
  authStatus (page_final (handleSignIn silent_env connected_page)) = idle.
Proof.
  refine (proj1 (proj2
    (handleSignIn_empty_signature silent_env connected_page
       (newBrowserProvider demo_wallet) "0xABCD" 1%Z _ eq_refl))).
  repeat split.
Defined.

(** [handleDisconnect] leaves, from every page, the initial wallet
    cells and [authStatus = idle], so that the page shows the button that
    opens the wallet modal; doing it again changes nothing. *)
Lemma handleDisconnect_resets pg :
  page_outcome (handleDisconnect pg) = Normal tt /\
  wallet (page_final (handleDisconnect pg)) = initialStore /\
  authStatus (page_final (handleDisconnect pg)) = idle /\
  showModal (page_final (handleDisconnect pg)) = showModal pg /\
  authView (page_final (handleDisconnect pg)) = ConnectWalletButton /\
  page_final (handleDisconnect (page_final (handleDisconnect pg)))
    = page_final (handleDisconnect pg).
Proof. repeat split. Qed.

(** X19. An account switch in the wallet keeps the badge: when the page
    shows the authenticated badge and the wallet reports another first
    account (a non-empty text), the page still shows the badge, now beside
    an address for which no signature was asked. *)
Theorem account_switch_keeps_badge pg first others :
  authView pg = AuthenticatedBadge ->
  first <> EmptyString ->
  authView (page_final (lift (accountsChanged (first :: others)) pg))
    = AuthenticatedBadge /\
  address (state (wallet (page_final
             (lift (accountsChanged (first :: others)) pg)))) = Some first.
Proof.
  intros Hview Hfirst.
  rewrite lift_run. unfold page_final, final, authView in *; simpl.
  destruct (isConnected (state (wallet pg))); [|discriminate Hview].
  destruct (JS.truthy_string (address (state (wallet pg))));
    [|discriminate Hview].
  simpl in Hview.
  destruct (JS.truthy_number (chainId (state (wallet pg))));
    [|discriminate Hview].
  destruct first; [contradiction|]. simpl.
  destruct (authStatus pg); try discriminate Hview. split; reflexivity.
Qed.

Lemma account_switch_keeps_badge_witness :
  authView (page_final (lift (accountsChanged ["0xEF01"])
                             (mkPage connected_store false authenticated)))
  = AuthenticatedBadge.
Proof.
  refine (proj1 (account_switch_keeps_badge
                   (mkPage connected_store false authenticated)
                   "0xEF01" [] eq_refl _)).
  discriminate.
Defined.

(** X20. A disconnect that comes from the wallet does not reset
    [authStatus]: after an empty account-change notification and a granted
    connect (first account a non-empty text, chain id not zero), a page
    whose [authStatus] was [authenticated] shows the badge again, with no
    sign request in between. *)
Theorem wallet_side_disconnect_keeps_authStatus pg type env eth first others
  network :
  authStatus pg = authenticated ->
  window_ethereum env = Some eth ->
  send_eth_requestAccounts env = Normal (first :: others) ->
  first <> EmptyString ->
  getNetwork env = Normal network ->
  net_chainId network <> 0%Z ->
  authStatus (page_final (lift (accountsChanged []) pg)) = authenticated /\
  authView (page_final (lift (accountsChanged []) pg)) = ConnectWalletButton /\
  authView (page_final
              (handleConnect type env
                 (page_final (lift (accountsChanged []) pg))))
    = AuthenticatedBadge.
Proof.
  intros Hauth Hw Ha Hfirst Hn Hchain.
  rewrite lift_run. unfold page_final at 1 2 4. simpl.
  split; [exact Hauth|]. split; [reflexivity|].
  unfold handleConnect, page_bind, onClose, setShowModal.
  rewrite lift_run. simpl.
  rewrite (connect_when_granted type env _ eth _ network Hw Ha Hn).
  unfold page_final, outcome, final, authView; simpl.
  destruct first; [contradiction|]. simpl.
  destruct (Z.eqb_spec (JS.to_number (net_chainId network)) 0) as [Hz|_];
    [now apply to_number_nonzero in Hz|]. simpl.
  rewrite Hauth. reflexivity.
Qed.

Lemma wallet_side_disconnect_keeps_authStatus_witness :
  authView (page_final
              (handleConnect metamask granting_env
                 (page_final (lift (accountsChanged [])
                    (mkPage connected_store false authenticated)))))
  = AuthenticatedBadge.
Proof.
  refine (proj2 (proj2
    (wallet_side_disconnect_keeps_authStatus
       (mkPage connected_store false authenticated) metamask granting_env
       demo_wallet "0xABCD" ["0xEF01"] (mkNetwork 1)
       eq_refl eq_refl eq_refl _ eq_refl _)));
    discriminate.
Defined.

(** X21. [handleConnect] of the wallet modal closes the modal whether the
    connect succeeded or not: it never throws, leaves [showModal = false],
    the wallet cells as [connect] left them and [authStatus] as it was. *)
Theorem handleConnect_always_closes type env pg :
  page_outcome (handleConnect type env pg) = Normal tt /\
  showModal (page_final (handleConnect type env pg)) = false /\
  wallet (page_final (handleConnect type env pg))
    = final (connect type env (wallet pg)) /\
  authStatus (page_final (handleConnect type env pg)) = authStatus pg.
Proof.
  unfold handleConnect, page_bind, onClose, setShowModal.
  rewrite lift_run.
  rewrite (connect_returns type env (wallet pg)). repeat split.
Qed.

(** ** The page with [LandingPage] and [Dashboard] *)

Lemma landing_handleConnect_run type env pg :
  Landing.handleConnect type env pg =
    (Normal tt,
     mkPage (final (connect type env (wallet pg)))
            (if isLoading (state (wallet pg)) then showModal pg else false)
            (authStatus pg)).
Proof.
  unfold Landing.handleConnect, page_bind, page_render, onClose, setShowModal,
    page_ret.
  rewrite lift_run, (connect_returns type env (wallet pg)).
  destruct (isLoading (state (wallet pg))); reflexivity.
Qed.

(** X22. [handleConnect] of this page closes the modal only if no request
    was outstanding when the handler was created: it never throws, leaves
    [showModal = false] when [isLoading] was false and [showModal] as it
    was otherwise, after a connect that succeeded or not. *)
Theorem landing_handleConnect_closes_unless_loading type env pg :
  page_outcome (Landing.handleConnect type env pg) = Normal tt /\
  (isLoading (state (wallet pg)) = false ->
   showModal (page_final (Landing.handleConnect type env pg)) = false) /\
  (isLoading (state (wallet pg)) = true ->
   showModal (page_final (Landing.handleConnect type env pg))
     = showModal pg) /\
  wallet (page_final (Landing.handleConnect type env pg))
    = final (connect type env (wallet pg)).
Proof.
  rewrite landing_handleConnect_run. unfold page_outcome, page_final; simpl.
  repeat split; intros ->; reflexivity.
Qed.

Lemma landing_handleConnect_closes_unless_loading_witness :
  showModal (page_final
               (Landing.handleConnect metamask declining_env
                  (mkPage initialStore true idle))) = false.
Proof.
  apply (proj1 (proj2
    (landing_handleConnect_closes_unless_loading metamask declining_env
       (mkPage initialStore true idle)))).
  reflexivity.
Defined.

Lemma act_run i pg :
  exists pg1,
    Landing.act i pg = (Normal tt, pg1) /\ authStatus pg1 = authStatus pg.
Proof.
  destruct i as [type cenv| |accounts|b]; simpl.
  - rewrite landing_handleConnect_run. eexists; split; reflexivity.
  - rewrite lift_run. eexists; split; reflexivity.
  - rewrite lift_run.
    replace (outcome (accountsChanged accounts (wallet pg))) with (Normal tt)
      by (destruct accounts; reflexivity).
    eexists; split; reflexivity.
  - eexists; split; reflexivity.
Qed.

Lemma with_effect_run m env pg pg1 :
  m pg = (Normal tt, pg1) ->
  Landing.with_effect m env pg =
    if Bool.eqb (isConnected (state (wallet pg)))
                (isConnected (state (wallet pg1)))
    then (Normal tt, pg1)
    else Landing.autoSignEffect env pg1.
Proof.
  intros H. unfold Landing.with_effect, page_bind, page_render, page_ret.
  rewrite H. destruct (Bool.eqb _ _); reflexivity.
Qed.

Lemma autoSignEffect_when_not_idle env pg :
  authStatus pg <> idle -> Landing.autoSignEffect env pg = (Normal tt, pg).
Proof.
  intros H. unfold Landing.autoSignEffect, page_bind, page_render, page_ret.
  destruct (authStatus pg); [contradiction| |];
    rewrite andb_false_r; reflexivity.
Qed.

Lemma interact_keeps_authenticated i env pg :
  authStatus pg = authenticated ->
  authStatus (page_final (Landing.interact i env pg)) = authenticated.
Proof.
  intros Hauth. unfold Landing.interact.
  destruct (act_run i pg) as (pg1 & Hact & Hsame).
  rewrite (with_effect_run _ env pg pg1 Hact).
  destruct (Bool.eqb _ _).
  - unfold page_final; simpl. congruence.
  - rewrite autoSignEffect_when_not_idle by (rewrite Hsame, Hauth; discriminate).
    unfold page_final; simpl. congruence.
Qed.

(** X23. On this page nothing leads out of [authenticated]: from a page
    whose [authStatus] is [authenticated], after any series of clicks on a
    wallet, clicks on [Disconnect Wallet], account-change notifications and
    modal toggles, with any answers of the wallet, [authStatus] is still
    [authenticated] and the page still shows the dashboard. *)
Theorem landing_authenticated_is_final steps pg :
  authStatus pg = authenticated ->
  authStatus (Landing.session steps pg) = authenticated /\
  Landing.screen (Landing.session steps pg) = Landing.DashboardScreen.
Proof.
  revert pg. induction steps as [|[i env] rest IH]; intros pg Hauth; simpl.
  - unfold Landing.screen. rewrite Hauth. split; reflexivity.
  - apply IH. now apply interact_keeps_authenticated.
Qed.

Lemma landing_authenticated_is_final_witness :
  Landing.screen
    (Landing.session
       [(Landing.ClickDisconnect, signing_env);
        (Landing.ClickWallet metamask declining_env, refusing_env)]
       (mkPage connected_store false authenticated))
  = Landing.DashboardScreen.
Proof.
  exact (proj2 (landing_authenticated_is_final
                  [(Landing.ClickDisconnect, signing_env);
                   (Landing.ClickWallet metamask declining_env, refusing_env)]
                  (mkPage connected_store false authenticated) eq_refl)).
Defined.

(** X24. A click on [Disconnect Wallet] of the dashboard empties the
    wallet cells but leaves the dashboard on the page, with a blank address
    and a blank network. *)
Theorem landing_disconnect_stays_on_dashboard env pg :
  authStatus pg = authenticated ->
  wallet (page_final (Landing.interact Landing.ClickDisconnect env pg))
    = initialStore /\
  Landing.screen (page_final (Landing.interact Landing.ClickDisconnect env pg))
    = Landing.DashboardScreen /\
  Landing.dashboard_address
    (page_final (Landing.interact Landing.ClickDisconnect env pg))
    = EmptyString /\
  Landing.dashboard_network
    (page_final (Landing.interact Landing.ClickDisconnect env pg))
    = EmptyString.
Proof.
  intros Hauth. unfold Landing.interact.
  assert (Landing.act Landing.ClickDisconnect pg
          = (Normal tt, mkPage initialStore (showModal pg) (authStatus pg)))
    as Hact by (simpl; rewrite lift_run; reflexivity).
  rewrite (with_effect_run _ env pg _ Hact).
  destruct (Bool.eqb _ _).
  - unfold page_final, Landing.screen; simpl. rewrite Hauth.
    repeat split.
  - rewrite autoSignEffect_when_not_idle
      by (simpl; rewrite Hauth; discriminate).
    unfold page_final, Landing.screen; simpl. rewrite Hauth.
    repeat split.
Qed.

Lemma landing_disconnect_stays_on_dashboard_witness :
  Landing.screen
    (page_final (Landing.interact Landing.ClickDisconnect signing_env
                   (mkPage connected_store false authenticated)))
  = Landing.DashboardScreen.
Proof.
  exact (proj1 (proj2
    (landing_disconnect_stays_on_dashboard signing_env
       (mkPage connected_store false authenticated) eq_refl))).
Defined.

(** X25. The sign request starts by itself after a connect: from a
    disconnected page whose [authStatus] is [idle], a click on a wallet
    that is granted (first account a non-empty text, chain id a safe
    integer other than zero) connects and asks the signer to sign the
    challenge for that account and chain; the page ends [authenticated]
    when the signer answers with a non-empty text, and [idle], still
    connected, otherwise. *)
Theorem landing_connect_signs_automatically type cenv senv pg eth first
  others network signer :
  isConnected (state (wallet pg)) = false ->
  authStatus pg = idle ->
  window_ethereum cenv = Some eth ->
  send_eth_requestAccounts cenv = Normal (RpcArray (first :: others)) ->
  first <> EmptyString ->
  getNetwork cenv = Normal network ->
  JS.safe_integer (net_chainId network) ->
  net_chainId network <> 0%Z ->
  getSigner senv (newBrowserProvider eth) = Normal signer ->
  authStatus (page_final
                (Landing.interact (Landing.ClickWallet type cenv) senv pg))
    = match signer_signMessage signer
              (generateSiweMessage (sign_ambient senv) first
                                   (net_chainId network)) with
      | Normal (String _ _) => authenticated
      | _ => idle
      end /\
  isConnected (state (wallet (page_final
                 (Landing.interact (Landing.ClickWallet type cenv) senv pg))))
    = true.
Proof.
  intros Hdis Hidle Hw Ha Hfirst Hn Hsafe Hchain Hsigner.
  unfold Landing.interact. cbn [Landing.act].
  rewrite (with_effect_run _ senv pg _
             (landing_handleConnect_run type cenv pg)).
  rewrite (connect_when_granted type cenv _ eth _ network Hw Ha Hn).
  rewrite (to_number_safe _ Hsafe).
  unfold final; simpl. rewrite Hdis. simpl.
  unfold Landing.autoSignEffect, page_bind, page_render. simpl.
  rewrite Hidle. simpl.
  set (pg1 := mkPage _ _ _).
  destruct (handleSignIn_run senv pg1) as (result & Hres & Hrun).
  change (Landing.handleAutoSign senv pg1) with (handleSignIn senv pg1).
  rewrite Hrun.
  assert (ready_with (wallet pg1) (newBrowserProvider eth) first
                     (net_chainId network)) as Hready.
  { repeat split. unfold not_ready; simpl.
    destruct first; [contradiction|]. simpl.
    destruct (Z.eqb_spec (net_chainId network) 0); [contradiction|reflexivity]. }
  rewrite (signMessage_ready senv (wallet pg1) _ _ _ Hready) in *.
  unfold signing_answer in *. rewrite Hsigner in *.
  destruct (signer_signMessage signer _) as [[|ch sg]|e];
    unfold outcome in Hres; simpl in Hres; inversion Hres; subst result;
    split; reflexivity.
Qed.

Lemma landing_connect_signs_automatically_witness :
  authStatus (page_final
                (Landing.interact (Landing.ClickWallet metamask granting_env)
                                  signing_env initialPage))
  = authenticated.
Proof.
  refine (proj1
    (landing_connect_signs_automatically metamask granting_env signing_env
       initialPage demo_wallet "0xABCD" ["0xEF01"] (mkNetwork 1) demo_signer
       eq_refl eq_refl eq_refl eq_refl _ eq_refl _ _ eq_refl));
    try discriminate.
  unfold JS.safe_integer, JS.max_safe_integer. simpl. lia.
Defined.

(** X26. No sign request starts while the connection flag stays as it is:
    an interaction that leaves [isConnected] unchanged leaves [authStatus]
    unchanged.  In particular a connected page whose sign request failed
    stays [idle] however often a wallet is clicked again. *)
Theorem landing_no_sign_without_flag_change i env pg :
  isConnected (state (wallet (page_final (Landing.interact i env pg))))
    = isConnected (state (wallet pg)) ->
  authStatus (page_final (Landing.interact i env pg)) = authStatus pg /\
  page_final (Landing.interact i env pg) = page_final (Landing.act i pg).
Proof.
  unfold Landing.interact.
  destruct (act_run i pg) as (pg1 & Hact & Hsame).
  rewrite (with_effect_run _ env pg pg1 Hact), Hact.
  destruct (Bool.eqb _ _) eqn:E.
  - intros _. unfold page_final; simpl. split; [exact Hsame|reflexivity].
  - apply Bool.eqb_false_iff in E. intros Hflag. exfalso. apply E.
    rewrite <- Hflag. clear Hflag E.
    unfold Landing.autoSignEffect, page_bind, page_render, page_ret. simpl.
    destruct (isConnected (state (wallet pg1)) && is_idle (authStatus pg1));
      [|reflexivity].
    change (Landing.handleAutoSign env pg1) with (handleSignIn env pg1).
    destruct (handleSignIn_run env pg1) as (result & _ & ->).
    unfold page_final; simpl.
    destruct (signMessage_cases env (wallet pg1))
      as [[_ ->]|[(p & a & c & sg & _ & _ & ->)|(p & a & c & e & _ & _ & ->)]];
      reflexivity.
Qed.

Lemma landing_no_sign_without_flag_change_witness :
  authStatus (page_final
                (Landing.interact (Landing.ClickWallet metamask granting_env)
                                  signing_env connected_page))
  = idle.
Proof.
  exact (proj1 (landing_no_sign_without_flag_change
                  (Landing.ClickWallet metamask granting_env) signing_env
                  connected_page eq_refl)).
Defined.
